(** * ObjectDetection: the video annotation loop of AI학습_YOLO.ipynb

    A shallow embedding of the notebook's [ObjectDetection] class (cell 1)
    and of its driver cell (cell 2), with the properties of the annotation
    loop stated and proved over it.

    Conventions of the model.
    - Python [int] is [Z].
    - [np.float64] and Python [float] are IEEE 754 binary64 numbers, taken
      from the Standard Library's executable specification [SpecFloat]
      (precision 53, exponent bound 1024), so that division by zero,
      infinities and rounding are the real ones.
    - The normalised box coordinates and confidences returned by the model
      are finite [np.float32] values; each is carried as the rational it
      equals.  Their product with a Python int is the binary32 product
      (NumPy 2 promotion: the int becomes a float32), rounded to nearest
      even: [F32.mul].
    - OpenCV drawing calls are recorded, in call order, in the frame's
      [overlay]; pixels are an opaque payload.
    - Python exceptions are values of type [exn]; a fallible computation
      returns [exn + A]. *)

From Stdlib Require Import ZArith QArith List String Ascii Bool Lia.
From Stdlib Require Import DecimalString.
From Stdlib Require Import SpecFloat.
Import ListNotations.

Local Open Scope string_scope.
Local Open Scope list_scope.
Local Open Scope Z_scope.

(** ** Python values *)

Inductive exn : Set :=
  | AssertionError
  | ZeroDivisionError
  | OverflowError
  | ValueError
  | IndexError.

(** [f"{z}"] for a Python int. *)
Definition str_int (z : Z) : string := NilZero.string_of_int (Z.to_int z).

Module Np.

Definition float64 := spec_float.

Definition prec : Z := 53.
Definition emax : Z := 1024.

Definition add : float64 -> float64 -> float64 := SFadd prec emax.
Definition mul : float64 -> float64 -> float64 := SFmul prec emax.
Definition div : float64 -> float64 -> float64 := SFdiv prec emax.

(** Conversion of a Python int to a float (round to nearest even). *)
Definition of_int (z : Z) : float64 := binary_normalize prec emax z 0 false.

Definition pinf : float64 := S754_infinity false.
Definition pzero : float64 := S754_zero false.

(** [int(x)]: truncation towards zero; [int(inf)] raises OverflowError
    and [int(nan)] raises ValueError. *)
Definition to_int (x : float64) : exn + Z :=
  match x with
  | S754_zero _ => inr 0
  | S754_infinity _ => inl OverflowError
  | S754_nan => inl ValueError
  | S754_finite s m e => inr (cond_Zopp s (Z.shiftl (Zpos m) e))
  end.

(** [a / b] on two Python ints: true division, the quotient of the two
    converted operands (exact conversions below 2^53, far above any frame
    count). *)
Definition int_truediv (a b : Z) : exn + float64 :=
  if b =? 0 then inl ZeroDivisionError else inr (div (of_int a) (of_int b)).

(** The sign and class of the values met by the FPS accumulator when no
    clock reading is negative: [+0], positive finite, [+inf]. *)
Definition nonneg (x : float64) : bool :=
  match x with
  | S754_zero s => negb s
  | S754_infinity s => negb s
  | S754_nan => false
  | S754_finite s _ _ => negb s
  end.

End Np.

(** A variable that holds a Python int at some program points and an
    [np.float64] at others ([fps] in [__call__]). *)
Inductive pynum : Set :=
  | PyInt (z : Z)
  | NpFloat (x : Np.float64).

Definition as_float (v : pynum) : Np.float64 :=
  match v with
  | PyInt z => Np.of_int z
  | NpFloat x => x
  end.

(** [int(q)] on an exact rational: truncation towards zero. *)
Definition Qtrunc (q : Q) : Z := Z.quot (Qnum q) (Zpos (Qden q)).

(** [np.float32]: IEEE 754 binary32 arithmetic on finite values, each value
    carried as the rational it equals.  A binary32 number has 24
    significant bits and is a whole multiple of 2^-149.  Overflow to
    infinity (results of 2^128 and more) is not modelled: the factors here
    are normalised coordinates and frame dimensions. *)
Module F32.

Definition bits : Z := 24.
Definition quantum : Z := 149.

(** [a / b] rounded to the nearest integer, ties to the even one
    ([0 < b]). *)
Definition rne (a b : Z) : Z :=
  let fl := a / b in
  let r := a mod b in
  match 2 * r ?= b with
  | Lt => fl
  | Gt => fl + 1
  | Eq => if Z.even fl then fl else fl + 1
  end.

(** The binary32 number nearest to [x >= 0], in units of 2^-149: the bits
    of [x / 2^-149] beyond the 24 leading ones are dropped by rounding. *)
Definition units (x : Q) : Z :=
  let n := Qnum x * 2 ^ quantum in
  let d := Zpos (Qden x) in
  let drop := Z.max 0 (Z.log2 (n / d) - (bits - 1)) in
  rne n (d * 2 ^ drop) * 2 ^ drop.

(** Rounding to binary32, to nearest and ties to even. *)
Definition round (x : Q) : Q :=
  if Qnum x <? 0
  then - (units (- x) # 2 ^ 149)
  else units x # 2 ^ 149.

(** A Python int taken as a float32, and the product of two float32. *)
Definition of_int (z : Z) : Q := round (inject_Z z).
Definition mul (x y : Q) : Q := round (x * y).

End F32.

(** The rational that a finite [spec_float] equals (0 for the others), to
    compare [F32] with the Standard Library's binary32. *)
Definition value_of (x : spec_float) : Q :=
  match x with
  | S754_finite s m e =>
    let v := if 0 <=? e then inject_Z (Zpos m * 2 ^ e)
             else Zpos m # Z.to_pos (2 ^ (- e)) in
    if s then (- v)%Q else v
  | _ => 0%Q
  end.

(** ** Frames and drawing *)

Definition point := (Z * Z)%type.
Definition colour := (Z * Z * Z)%type.

Inductive draw_op : Set :=
  | Rectangle (pt1 pt2 : point) (color : colour) (thickness : Z)
  | PutText (text : string) (org : point) (fontFace : Z) (fontScale : Q)
            (color : colour) (thickness : Z).

(** A decoded image: [frame.shape[0]] is [height], [frame.shape[1]] is
    [width]. *)
Record Frame : Set := mkFrame {
  height : Z;
  width : Z;
  pixels : N;
  overlay : list draw_op
}.

Definition draw (f : Frame) (op : draw_op) : Frame :=
  mkFrame (height f) (width f) (pixels f) (overlay f ++ [op]).

(** One row of [cord]: [row[0..3]] the normalised corners, [row[4]] the
    confidence, each a float32 carried as the rational it equals. *)
Record Row : Set := mkRow { r0 : Q; r1 : Q; r2 : Q; r3 : Q; r4 : Q }.

(** One row of [results.xyxyn[0]]: five columns of [Row] and the class. *)
Record Det : Set := mkDet { det_row : Row; det_cls : Q }.

Definition Results := (list Q * list Row)%type.

(** ** The detection model and the outside world *)

(** The handle returned by [torch.hub.load]: three settable attributes and
    the network itself, which maps a frame to the rows of
    [results.xyxyn[0]]. *)
Record Model : Type := mkModel {
  conf : Q;
  iou : Q;
  classes : list Z;
  forward : Frame -> list Det
}.

(** What [cv2.VideoCapture] finds behind a path: the reported properties
    (as truncated by [int(player.get(...))]) and the outcome of each
    successive [read()], [None] for a frame that cannot be decoded.  A read
    past the end of [v_reads] fails as well. *)
Record Video : Set := mkVideo {
  v_width : Z;
  v_height : Z;
  v_count : Z;
  v_reads : list (option Frame)
}.

(** The environment of a run.  [elapsed i] is the value of
    [np.round(end_time - start_time, 3)] in the [i]-th iteration of the
    loop (counted from 0): the clock is not under the program's control. *)
Record World : Type := mkWorld {
  source : string -> option Video;
  hub_model : Model;
  cuda_available : bool;
  elapsed : nat -> Np.float64
}.

Record VideoCapture : Set := mkCapture {
  isOpened : bool;
  cap_width : Z;
  cap_height : Z;
  cap_count : Z;
  pending : list (option Frame);
  cap_released : bool
}.

Record VideoWriter : Set := mkWriter {
  w_file : string;
  w_fourcc : string;
  w_rate : Z;
  w_size : Z * Z;
  w_frames : list Frame;
  w_released : bool
}.

Record ObjectDetection : Type := mkObjectDetection {
  input_file : string;
  model : Model;
  out_file : string;
  device : string
}.

(** [load_model]. *)
Definition load_model (w : World) : Model := hub_model w.

(** [__init__]: the model is loaded, then its three attributes are set
    one after the other. *)
Definition init (w : World) (input out : string) : ObjectDetection :=
  let m := load_model w in
  let m := mkModel (4 # 10) (iou m) (classes m) (forward m) in
  let m := mkModel (conf m) (3 # 10) (classes m) (forward m) in
  let m := mkModel (conf m) (iou m) [0] (forward m) in
  mkObjectDetection input m out
    (if cuda_available w then "cuda" else "cpu").

(** [cv2.VideoCapture(path)]: always an object; it is opened only when the
    path names a readable source. *)
Definition cv2_VideoCapture (w : World) (path : string) : VideoCapture :=
  match source w path with
  | Some v => mkCapture true (v_width v) (v_height v) (v_count v) (v_reads v) false
  | None => mkCapture false 0 0 0 [] false
  end.

(** [get_video_from_file]: the assertion [cap is not None] cannot fail, the
    constructor call always yields an object. *)
Definition get_video_from_file (w : World) (self : ObjectDetection)
  : VideoCapture :=
  let cap := cv2_VideoCapture w (input_file self) in
  cap.

(** [score_frame]: the label column and the five coordinate columns of the
    model's output for the frame.  Moving the model to [self.device] has no
    effect on them. *)
Definition score_frame (self : ObjectDetection) (frame : Frame) : Results :=
  let results := forward (model self) frame in
  (map det_cls results, map det_row results).

Definition FONT_HERSHEY_SIMPLEX : Z := 0.

(** The body of the [for i in range(n)] loop of [plot_boxes], over the
    remaining indices.  [row[k] * x_shape] is a float32 product and [int]
    truncates it.  The rows are those of a detection result: finite, so
    that [int] has a finite argument, and normalised, so that the corners
    fit the C ints [cv2.rectangle] takes. *)
Fixpoint plot_rows (cord : list Row) (n : nat) (x_shape y_shape : Z)
    (indices : list nat) (frame : Frame) : exn + Frame :=
  match indices with
  | [] => inr frame
  | i :: rest =>
    match nth_error cord i with
    | None => inl IndexError
    | Some row =>
      let x1 := Qtrunc (F32.mul (r0 row) (F32.of_int x_shape)) in
      let y1 := Qtrunc (F32.mul (r1 row) (F32.of_int y_shape)) in
      let x2 := Qtrunc (F32.mul (r2 row) (F32.of_int x_shape)) in
      let y2 := Qtrunc (F32.mul (r3 row) (F32.of_int y_shape)) in
      let bgr := (0, 0, 255) in
      let frame := draw frame (Rectangle (x1, y1) (x2, y2) bgr 3) in
      let label := str_int (Qtrunc (F32.mul (r4 row) (F32.of_int 100))) in
      let frame :=
        draw frame (PutText label (x1, y1) FONT_HERSHEY_SIMPLEX (6 # 10)
                            (0, 255, 0) 1) in
      let frame :=
        draw frame (PutText ("Total Targets: " ++ str_int (Z.of_nat n))
                            (30, 30) FONT_HERSHEY_SIMPLEX 1 (0, 255, 0) 2) in
      plot_rows cord n x_shape y_shape rest frame
    end
  end.

(** [plot_boxes]. *)
Definition plot_boxes (results : Results) (frame : Frame) : exn + Frame :=
  let '(labels, cord) := results in
  let n := List.length labels in
  let x_shape := width frame in
  let y_shape := height frame in
  plot_rows cord n x_shape y_shape (seq 0 n) frame.

(** ** The annotation loop *)

(** The local variables of [__call__] that the loop mutates, the frames
    handed to [out.write], the lines printed, and the number of loop
    iterations started so far (the index into [elapsed]). *)
Record Locals : Set := mkLocals {
  fc : Z;
  fps : pynum;
  tfcc : Z;
  written : list Frame;
  stdout : list string;
  iteration : nat
}.

Definition progress_line (fps per_com : Z) : string :=
  "Frames Per Second : " ++ str_int fps ++
  " || Percentage Parsed : " ++ str_int per_com.

(** The statements under [if fc == 10:]; [fps1] is the accumulator after
    [fps += ...], [fc1] the frame counter (10 here). *)
Definition report (tfc : Z) (fc1 : Z) (fps1 : Np.float64) (tfcc0 : Z)
  : exn + (Z * Z * Z * string) :=
  match Np.to_int (Np.div fps1 (Np.of_int 10)) with
  | inl e => inl e
  | inr fps2 =>
    let tfcc1 := tfcc0 + fc1 in
    let fc2 := 0 in
    match Np.int_truediv tfcc1 tfc with
    | inl e => inl e
    | inr ratio =>
      match Np.to_int (Np.mul ratio (Np.of_int 100)) with
      | inl e => inl e
      | inr per_com => inr (fps2, tfcc1, fc2, progress_line fps2 per_com)
      end
    end
  end.

(** [while True: ...] of [__call__], by recursion on the reads still to
    come.  The result is the exception that left the loop ([None] for
    [break]), the locals and the reads not yet consumed.  With an exception
    of the report the locals are returned as they were before its
    assignments: [fc], [fps] and [tfcc] are dead by then, and [written] and
    [stdout] are not touched by it. *)
Fixpoint loop (w : World) (self : ObjectDetection) (tfc : Z)
    (reads : list (option Frame)) (l : Locals)
  : option exn * Locals * list (option Frame) :=
  let fc1 := fc l + 1 in
  let l1 := mkLocals fc1 (fps l) (tfcc l) (written l) (stdout l)
                     (S (iteration l)) in
  match reads with
  | [] => (None, l1, [])
  | None :: reads' => (None, l1, reads')
  | Some frame :: reads' =>
    let results := score_frame self frame in
    match plot_boxes results frame with
    | inl e => (Some e, l1, reads')
    | inr frame =>
      let fps1 :=
        Np.add (as_float (fps l))
               (Np.div (Np.of_int 1) (elapsed w (iteration l))) in
      let l2 := mkLocals fc1 (NpFloat fps1) (tfcc l) (written l) (stdout l)
                         (S (iteration l)) in
      if fc1 =? 10 then
        match report tfc fc1 fps1 (tfcc l) with
        | inl e => (Some e, l2, reads')
        | inr (fps2, tfcc1, fc2, line) =>
          loop w self tfc reads'
               (mkLocals fc2 (PyInt fps2) tfcc1 (written l ++ [frame])
                         (stdout l ++ [line]) (S (iteration l)))
        end
      else
        loop w self tfc reads'
             (mkLocals fc1 (NpFloat fps1) (tfcc l) (written l ++ [frame])
                       (stdout l) (S (iteration l)))
    end
  end.

(** The state left by a call of [__call__]: the exception it raised, if
    any, the two stream objects (the writer exists only once
    [cv2.VideoWriter] has been called), and what was printed. *)
Record Run : Set := mkRun {
  raised : option exn;
  player : VideoCapture;
  out : option VideoWriter;
  printed : list string
}.

Definition release (c : VideoCapture) : VideoCapture :=
  mkCapture (isOpened c) (cap_width c) (cap_height c) (cap_count c)
            (pending c) true.

(** [__call__]. *)
Definition call (w : World) (self : ObjectDetection) : Run :=
  let player := get_video_from_file w self in
  if negb (isOpened player) then mkRun (Some AssertionError) player None []
  else
    let x_shape := cap_width player in
    let y_shape := cap_height player in
    let four_cc := "MJPG" in
    let out0 := mkWriter (out_file self) four_cc 20 (x_shape, y_shape) [] false in
    let fc0 := 0 in
    let fps0 := PyInt 0 in
    let tfc := cap_count player in
    let tfcc0 := 0 in
    let '(e, l, rest) :=
      loop w self tfc (pending player) (mkLocals fc0 fps0 tfcc0 [] [] 0) in
    let player1 := mkCapture (isOpened player) (cap_width player)
                             (cap_height player) (cap_count player) rest
                             (cap_released player) in
    let out1 := mkWriter (w_file out0) (w_fourcc out0) (w_rate out0)
                         (w_size out0) (written l) (w_released out0) in
    match e with
    | Some e => mkRun (Some e) player1 (Some out1) (stdout l)
    | None => mkRun None (release player1) (Some out1) (stdout l)
    end.

(** ** The driver cell *)

Definition driver_input : string :=
  "C:/Users/sunfo/Downloads/이상행동 CCTV 영상/02.싸움(fight)/insidedoor_03/37-4/37-4_cam01_fight01_place02_night_spring.mp4".

Definition driver_output : string :=
  "C:/Users/sunfo/OneDrive/바탕 화면/detected_37-4_cam01_fight01_place02_night_spring.mp4".

(** Cell 2: [sys.argv[1]] and [sys.argv[2]] are read into [link] and
    [output_file]; the object is built from the two literals.  The result
    is the exception of a failed [sys.argv] lookup, or the object called
    and the state its call leaves. *)
Definition driver (w : World) (argv : list string)
  : exn + (ObjectDetection * Run) :=
  match nth_error argv 1 with
  | None => inl IndexError
  | Some link =>
    match nth_error argv 2 with
    | None => inl IndexError
    | Some output_file =>
      let a := init w driver_input driver_output in
      inr (a, call w a)
    end
  end.

(** ** Concrete worlds used by the examples below *)

Module Scenario.

(** A 640x480 frame with payload [i] and nothing drawn on it. *)
Definition blank (i : N) : Frame := mkFrame 480 640 i [].

Definition clip (n : nat) : list (option Frame) :=
  map (fun i => Some (blank (N.of_nat i))) (seq 0 n).

(** A network that detects nothing, and one that reports a single
    person in the middle of every frame. *)
Definition no_detections : Model := mkModel 0 0 [] (fun _ => []).

Definition one_person : Model :=
  mkModel 0 0 []
    (fun _ => [mkDet (mkRow (1 # 4) (1 # 4) (3 # 4) (3 # 4) (9 # 10)) 0]).

(** [np.round(t, 3)] for an elapsed time of [k] thousandths of a second:
    NumPy computes [rint(t * 1000) / 1000]. *)
Definition ms (k : Z) : Np.float64 := Np.div (Np.of_int k) (Np.of_int 1000).

(** A world with one video at ["in.mp4"], reporting [count] frames. *)
Definition world (m : Model) (count : Z) (reads : list (option Frame))
    (clock : nat -> Np.float64) : World :=
  mkWorld
    (fun path => if String.eqb path "in.mp4"
                 then Some (mkVideo 640 480 count reads) else None)
    m false clock.

Definition job (w : World) : ObjectDetection := init w "in.mp4" "out.avi".

(** Every iteration takes 10 ms. *)
Definition steady : nat -> Np.float64 := fun _ => ms 10.

(** Iteration 3 takes less than half a millisecond, the others 10 ms. *)
Definition hasty : nat -> Np.float64 :=
  fun i => if Nat.eqb i 3 then ms 0 else ms 10.

(** 10 and 20 frames without detections, the frame count reported
    right. *)
Definition quiet10 : World := world no_detections 10 (clip 10) steady.
Definition quiet20 : World := world no_detections 20 (clip 20) steady.

(** 10 frames behind a source that reports a frame count of 0. *)
Definition uncounted : World := world no_detections 0 (clip 10) steady.

(** The same on the hasty clock. *)
Definition uncounted_hasty : World := world no_detections 0 (clip 10) hasty.

(** A detection whose coordinates and confidence are the float32 numbers
    nearest to 0.7, 0.7, 0.9, 0.9 and 0.29. *)
Definition corner_box : Row :=
  mkRow (11744051 # 16777216) (11744051 # 16777216)
        (15099494 # 16777216) (15099494 # 16777216)
        (9730785 # 33554432).

(** 5 and 20 frames with one detection each, on the hasty clock. *)
Definition hasty5 : World := world one_person 5 (clip 5) hasty.
Definition hasty20 : World := world one_person 20 (clip 20) hasty.

(** 7 frames, then a frame that cannot be decoded, then 5 more. *)
Definition damaged : World :=
  world one_person 13 (clip 7 ++ None :: clip 5) steady.

End Scenario.

(** ** Derived notions used in the statements *)

(** The frames a stream delivers before its first failed read. *)
Fixpoint readable (reads : list (option Frame)) : list Frame :=
  match reads with
  | Some f :: reads' => f :: readable reads'
  | _ => []
  end.

(** [annotated self f f']: [f'] is what the loop body hands to [out.write]
    for the frame [f]. *)
Definition annotated (self : ObjectDetection) (f f' : Frame) : Prop :=
  plot_boxes (score_frame self f) f = inr f'.

(** The frames given to [out.write] during a run. *)
Definition frames_out (r : Run) : list Frame :=
  match out r with
  | Some wr => w_frames wr
  | None => []
  end.

(** The three drawing calls [plot_boxes] makes for one row. *)
Definition row_ops (n : nat) (x_shape y_shape : Z) (row : Row) : list draw_op :=
  let x1 := Qtrunc (F32.mul (r0 row) (F32.of_int x_shape)) in
  let y1 := Qtrunc (F32.mul (r1 row) (F32.of_int y_shape)) in
  let x2 := Qtrunc (F32.mul (r2 row) (F32.of_int x_shape)) in
  let y2 := Qtrunc (F32.mul (r3 row) (F32.of_int y_shape)) in
  [ Rectangle (x1, y1) (x2, y2) (0, 0, 255) 3;
    PutText (str_int (Qtrunc (F32.mul (r4 row) (F32.of_int 100)))) (x1, y1)
            FONT_HERSHEY_SIMPLEX (6 # 10) (0, 255, 0) 1;
    PutText ("Total Targets: " ++ str_int (Z.of_nat n)) (30, 30)
            FONT_HERSHEY_SIMPLEX 1 (0, 255, 0) 2 ].

(** All four corner coordinates of a row lie in [0, 1]. *)
Definition normalised (row : Row) : Prop :=
  (0 <= r0 row <= 1)%Q /\ (0 <= r1 row <= 1)%Q /\
  (0 <= r2 row <= 1)%Q /\ (0 <= r3 row <= 1)%Q.

Definition inside (f : Frame) (p : point) : Prop :=
  0 <= fst p <= width f /\ 0 <= snd p <= height f.

(** The corners of a drawn box lie within the frame; text is not a box. *)
Definition box_inside (f : Frame) (op : draw_op) : Prop :=
  match op with
  | Rectangle pt1 pt2 _ _ => inside f pt1 /\ inside f pt2
  | PutText _ _ _ _ _ _ => True
  end.

(** The FPS accumulator after [k] more iterations, the first of them the
    [i]-th of the run, none of them reaching [fc == 10]. *)
Fixpoint accumulate (w : World) (acc : Np.float64) (i k : nat) : Np.float64 :=
  match k with
  | O => acc
  | S k' =>
    accumulate w (Np.add acc (Np.div (Np.of_int 1) (elapsed w i))) (S i) k'
  end.

(** [ordered row]: the first corner of the row is not right of or below
    the second. *)
Definition ordered (row : Row) : Prop :=
  (r0 row <= r2 row)%Q /\ (r1 row <= r3 row)%Q.

(** The same on a drawn box. *)
Definition box_ordered (op : draw_op) : Prop :=
  match op with
  | Rectangle pt1 pt2 _ _ => fst pt1 <= fst pt2 /\ snd pt1 <= snd pt2
  | PutText _ _ _ _ _ _ => True
  end.

(** ** The dataset cells *)

(** The character ['\n']. *)
Definition newline : string := String (ascii_of_nat 10) EmptyString.

(** Cell 10: the text given to [f.write] for a list of image paths,
    ['\n'.join(paths) + '\n']. *)
Definition list_text (paths : list string) : string :=
  (String.concat newline paths ++ newline)%string.

(** The text of every file that exists, as written and read in text
    mode. *)
Definition Files := string -> option string.

(** [with open(path, 'w') as f: f.write(text)], the directory of [path]
    existing: the file is created or replaced. *)
Definition write_text (fs : Files) (path text : string) : Files :=
  fun p => if String.eqb p path then Some text else fs p.

Definition train_txt : string :=
  "C:/sooeun/DATAexam/ConvergenceProject-CareSystem/roboflow/train.txt".

Definition val_txt : string :=
  "C:/sooeun/DATAexam/ConvergenceProject-CareSystem/roboflow/val.txt".

(** Cell 10. *)
Definition write_lists (fs : Files) (train_img_list val_img_list : list string)
  : Files :=
  let fs := write_text fs train_txt (list_text train_img_list) in
  write_text fs val_txt (list_text val_img_list).

(** ** Arithmetic of the model *)

Section Rounding.

Variables prec emax : Z.

Lemma shr_1_nonneg mrs : 0 <= shr_m mrs -> 0 <= shr_m (shr_1 mrs).
Proof.
  destruct mrs as [m r s]; simpl.
  destruct m as [|p|p]; simpl; try lia; destruct p; simpl; lia.
Qed.

Lemma iter_shr_1_nonneg p :
  forall mrs, 0 <= shr_m mrs -> 0 <= shr_m (iter_pos shr_1 p mrs).
Proof.
  induction p as [p IH|p IH|]; intros mrs H; simpl.
  - apply IH, IH, shr_1_nonneg, H.
  - apply IH, IH, H.
  - apply shr_1_nonneg, H.
Qed.

Lemma shr_fexp_nonneg m e l :
  0 <= m -> 0 <= shr_m (fst (shr_fexp prec emax m e l)).
Proof.
  intros H. unfold shr_fexp, shr.
  assert (H0 : 0 <= shr_m (shr_record_of_loc m l))
    by (destruct l as [|[]]; exact H).
  destruct (fexp prec emax (Zdigits2 m + e) - e); simpl; auto.
  apply iter_shr_1_nonneg, H0.
Qed.

Lemma round_nearest_even_nonneg m l : 0 <= m -> 0 <= round_nearest_even m l.
Proof.
  intros H. destruct l as [|[]]; simpl; try lia.
  destruct (Z.even m); lia.
Qed.

Lemma binary_round_aux_nonneg m e l :
  0 <= m -> Np.nonneg (binary_round_aux prec emax false m e l) = true.
Proof.
  intros H. unfold binary_round_aux.
  pose proof (shr_fexp_nonneg m e l H) as H1.
  destruct (shr_fexp prec emax m e l) as [mrs' e']; simpl in H1.
  pose proof (shr_fexp_nonneg _ e' loc_Exact
                (round_nearest_even_nonneg _ (loc_of_shr_record mrs') H1))
    as H2.
  destruct (shr_fexp prec emax _ e' loc_Exact) as [mrs'' e'']; simpl in H2.
  destruct (shr_m mrs'') as [|p|p]; try reflexivity.
  - destruct (e'' <=? emax - prec); reflexivity.
  - lia.
Qed.

End Rounding.

Lemma one_is_finite : Np.of_int 1 = S754_finite false 4503599627370496 (-52).
Proof. reflexivity. Qed.

(** [1 / x] never raises: on [+0.0] it is [+inf]; on a value that is not
    negative it is not negative. *)
Lemma reciprocal_zero : Np.div (Np.of_int 1) Np.pzero = Np.pinf.
Proof. reflexivity. Qed.

Lemma reciprocal_nonneg x :
  Np.nonneg x = true -> Np.nonneg (Np.div (Np.of_int 1) x) = true.
Proof.
  rewrite one_is_finite.
  destruct x as [s|s| |s m e]; simpl; intros H; try discriminate;
    try (destruct s; [discriminate|reflexivity]).
  destruct s; [discriminate|]. unfold Np.div, SFdiv.
  destruct (SFdiv_core_binary _ _ _ _ _ _) as [[mz ez] lz] eqn:E.
  apply binary_round_aux_nonneg.
  unfold SFdiv_core_binary in E.
  match type of E with
  | (let '(q, r) := Z.div_eucl ?a ?b in _) = _ =>
    assert (Ha : 0 <= a);
      [| pose proof (Z.div_pos a b Ha ltac:(lia)) as Hq;
         unfold Z.div in Hq; destruct (Z.div_eucl a b) as [q r] ]
  end.
  - match goal with
    | |- 0 <= match ?s with _ => _ end => destruct s eqn:Es
    end; try lia.
    apply Z.shiftl_nonneg. lia.
  - inversion E; subst. exact Hq.
Qed.

Lemma add_nonneg x y :
  Np.nonneg x = true -> Np.nonneg y = true -> Np.nonneg (Np.add x y) = true.
Proof.
  destruct x as [sx|sx| |sx mx ex]; destruct y as [sy|sy| |sy my ey];
    simpl; intros Hx Hy; try discriminate;
    destruct sx; try discriminate; destruct sy; try discriminate;
    try reflexivity.
  unfold Np.add, SFadd, cond_Zopp.
  change (Z.pos ?a + Z.pos ?b) with (Z.pos (a + b)).
  unfold binary_normalize, binary_round.
  destruct (shl_align _ _ _) as [mz ez].
  apply binary_round_aux_nonneg. lia.
Qed.

Lemma add_pinf_l y : Np.nonneg y = true -> Np.add Np.pinf y = Np.pinf.
Proof.
  destruct y as [s|s| |s m e]; simpl; intros H; try discriminate;
    destruct s; try discriminate; reflexivity.
Qed.

Lemma add_pinf_r x : Np.nonneg x = true -> Np.add x Np.pinf = Np.pinf.
Proof.
  destruct x as [s|s| |s m e]; simpl; intros H; try discriminate;
    destruct s; try discriminate; reflexivity.
Qed.

(** [a / 0] on Python ints raises ZeroDivisionError. *)
Lemma int_truediv_by_zero a : Np.int_truediv a 0 = inl ZeroDivisionError.
Proof. reflexivity. Qed.

(** [int(inf / 10)] raises OverflowError. *)
Lemma average_of_pinf :
  Np.to_int (Np.div Np.pinf (Np.of_int 10)) = inl OverflowError.
Proof. reflexivity. Qed.

(** The report raises OverflowError on an infinite accumulator, and
    ZeroDivisionError on a frame count of 0 once the average has been
    converted. *)
Lemma report_overflow tfc fc1 tfcc0 :
  report tfc fc1 Np.pinf tfcc0 = inl OverflowError.
Proof. reflexivity. Qed.

Lemma report_zero_count fc1 fps1 tfcc0 average :
  Np.to_int (Np.div fps1 (Np.of_int 10)) = inr average ->
  report 0 fc1 fps1 tfcc0 = inl ZeroDivisionError.
Proof. intros H. unfold report. rewrite H. reflexivity. Qed.

Section Accumulator.

Variable w : World.

Lemma accumulate_pinf k :
  forall i,
    (forall n, (i <= n < i + k)%nat -> Np.nonneg (elapsed w n) = true) ->
    accumulate w Np.pinf i k = Np.pinf.
Proof.
  induction k as [|k IH]; intros i H; cbn [accumulate]; [reflexivity|].
  rewrite add_pinf_l.
  - apply IH. intros n Hn. apply H. lia.
  - apply reciprocal_nonneg, H. lia.
Qed.

Lemma accumulate_zero_elapsed k :
  forall acc i j,
    Np.nonneg acc = true ->
    (forall n, (i <= n < i + k)%nat -> Np.nonneg (elapsed w n) = true) ->
    (i <= j < i + k)%nat ->
    elapsed w j = Np.pzero ->
    accumulate w acc i k = Np.pinf.
Proof.
  induction k as [|k IH]; intros acc i j Hacc H Hj Hz; [lia|].
  cbn [accumulate].
  destruct (Nat.eq_dec i j) as [->|Hne].
  - rewrite Hz, reciprocal_zero, add_pinf_r by exact Hacc.
    apply accumulate_pinf. intros n Hn. apply H. lia.
  - apply (IH _ _ j); try lia; try exact Hz.
    + apply add_nonneg; [exact Hacc|]. apply reciprocal_nonneg, H. lia.
    + intros n Hn. apply H. lia.
Qed.

Lemma accumulate_snoc k :
  forall acc i,
    accumulate w acc i (S k) =
    Np.add (accumulate w acc i k)
           (Np.div (Np.of_int 1) (elapsed w (i + k))).
Proof.
  induction k as [|k IH]; intros acc i.
  - cbn [accumulate]. rewrite Nat.add_0_r. reflexivity.
  - change (accumulate w acc i (S (S k)))
      with (accumulate w (Np.add acc (Np.div (Np.of_int 1) (elapsed w i)))
                       (S i) (S k)).
    rewrite IH. cbn [accumulate]. rewrite Nat.add_succ_r. reflexivity.
Qed.

End Accumulator.

(** ** Denormalisation *)

(** *** Rounding to binary32 *)

(** [F32.mul] gives the products of [SpecFloat]'s binary32 multiplication:
    0.7f * 640, 0.29f * 100, 0.9f * 480, a product that needs rounding up,
    a tie, a negative factor and two subnormal results. *)
Lemma F32_mul_agrees_with_binary32_on_samples :
  Forall (fun xy =>
            (value_of (SFmul 24 128 (fst xy) (snd xy))
             == F32.mul (value_of (fst xy)) (value_of (snd xy)))%Q)
         [ (S754_finite false 11744051 (-24), binary_normalize 24 128 640 0 false);
           (S754_finite false 9730785 (-25), binary_normalize 24 128 100 0 false);
           (S754_finite false 15099494 (-24), binary_normalize 24 128 480 0 false);
           (S754_finite false 11184811 (-25), S754_finite false 11184811 (-25));
           (S754_finite false 8388609 (-23), S754_finite false 12582912 (-23));
           (S754_finite true 11184811 (-25), S754_finite false 10334765 (-27));
           (S754_finite false 3 (-149), S754_finite false 8388608 (-24));
           (S754_finite false 12345677 (-140), S754_finite false 9999999 (-30)) ].
Proof.
  repeat constructor; vm_compute; reflexivity.
Qed.

Lemma rne_lower a b k : 0 < b -> k * b <= a -> k <= F32.rne a b.
Proof.
  intros Hb H. unfold F32.rne.
  pose proof (Z.div_mod a b ltac:(lia)) as Ha.
  pose proof (Z.mod_pos_bound a b Hb) as Hr.
  assert (k <= a / b) by nia.
  destruct (2 * (a mod b) ?= b); [destruct (Z.even (a / b))| |]; lia.
Qed.

Lemma rne_upper a b k : 0 < b -> a <= k * b -> F32.rne a b <= k.
Proof.
  intros Hb H. unfold F32.rne.
  pose proof (Z.div_mod a b ltac:(lia)) as Ha.
  pose proof (Z.mod_pos_bound a b Hb) as Hr.
  assert (Hfl : a / b <= k) by nia.
  destruct (Z.eq_dec (a / b) k) as [E|E].
  - assert (a mod b = 0) by nia.
    replace (2 * (a mod b) ?= b) with Lt; [lia|].
    symmetry. apply Z.compare_lt_iff. lia.
  - destruct (2 * (a mod b) ?= b); [destruct (Z.even (a / b))| |]; lia.
Qed.

Lemma rne_mono a b a' b' :
  0 < b -> 0 < b' -> a * b' <= a' * b -> F32.rne a b <= F32.rne a' b'.
Proof.
  intros Hb Hb' H. unfold F32.rne.
  pose proof (Z.div_mod a b ltac:(lia)) as Ha.
  pose proof (Z.mod_pos_bound a b Hb) as Hr.
  pose proof (Z.div_mod a' b' ltac:(lia)) as Ha'.
  pose proof (Z.mod_pos_bound a' b' Hb') as Hr'.
  set (f := a / b) in *. set (r := a mod b) in *.
  set (f' := a' / b') in *. set (r' := a' mod b') in *.
  assert (Hf : f <= f').
  { destruct (Z.le_gt_cases f f') as [L|G]; [exact L|exfalso].
    assert (b * f' + b <= b * f) by nia.
    assert (a' * b < (b * f' + b) * b') by nia.
    assert ((b * f' + b) * b' <= a * b') by nia.
    lia. }
  destruct (Z.eq_dec f f') as [E|E].
  - assert (Hrr : r * b' <= r' * b) by nia.
    rewrite <- E.
    destruct (Z.compare_spec (2 * r) b) as [C|C|C];
      destruct (Z.compare_spec (2 * r') b') as [C'|C'|C'];
      try (destruct (Z.even f)); try lia; exfalso; nia.
  - assert (f + 1 <= f') by lia.
    destruct (2 * r ?= b); destruct (2 * r' ?= b');
      try (destruct (Z.even f)); try (destruct (Z.even f')); lia.
Qed.

Lemma div_le_cross a b a' b' :
  0 < b -> 0 < b' -> a * b' <= a' * b -> a / b <= a' / b'.
Proof.
  intros Hb Hb' H.
  pose proof (Z.div_mod a b ltac:(lia)) as Ha.
  pose proof (Z.mod_pos_bound a b Hb) as Hr.
  pose proof (Z.div_mod a' b' ltac:(lia)) as Ha'.
  pose proof (Z.mod_pos_bound a' b' Hb') as Hr'.
  destruct (Z.le_gt_cases (a / b) (a' / b')) as [L|G]; [exact L|exfalso].
  assert (b * (a' / b') + b <= b * (a / b)) by nia.
  assert (a' * b < (b * (a' / b') + b) * b') by nia.
  assert ((b * (a' / b') + b) * b' <= a * b') by nia.
  lia.
Qed.

(** Below a power of two: [t < 2^(log2 t + 1)], also for [t = 0]. *)
Lemma below_next_power t : 0 <= t -> t + 1 <= 2 ^ (Z.log2 t + 1).
Proof.
  intros Ht. destruct (Z.eq_dec t 0) as [->|Hn]; [simpl; lia|].
  pose proof (Z.log2_spec t ltac:(lia)). rewrite <- Z.add_1_r in *. lia.
Qed.

Lemma units_mono (x y : Q) :
  0 <= Qnum x -> (x <= y)%Q -> F32.units x <= F32.units y.
Proof.
  intros Hx Hxy. unfold Qle in Hxy.
  assert (Hy : 0 <= Qnum y) by nia.
  unfold F32.units.
  set (S := 2 ^ F32.quantum). assert (HS : 0 < S) by (apply Z.pow_pos_nonneg; unfold F32.quantum; lia).
  set (n := Qnum x * S). set (d := Z.pos (Qden x)).
  set (n' := Qnum y * S). set (d' := Z.pos (Qden y)).
  assert (Hd : 0 < d) by (unfold d; lia).
  assert (Hd' : 0 < d') by (unfold d'; lia).
  assert (Hn : 0 <= n) by (unfold n; nia).
  assert (Hn' : 0 <= n') by (unfold n'; nia).
  assert (Hc : n * d' <= n' * d) by (unfold n, n', d, d'; nia).
  assert (Ht : n / d <= n' / d') by (apply div_le_cross; assumption).
  assert (Ht0 : 0 <= n / d) by (apply Z.div_pos; lia).
  pose proof (Z.log2_le_mono _ _ Ht) as Hl.
  set (t := n / d) in *. set (t' := n' / d') in *.
  set (k := Z.max 0 (Z.log2 t - (F32.bits - 1))).
  set (k' := Z.max 0 (Z.log2 t' - (F32.bits - 1))).
  assert (Hk : 0 <= k) by (unfold k; lia).
  assert (Hkk : k <= k') by (unfold k, k'; lia).
  assert (HP : 0 < 2 ^ k) by (apply Z.pow_pos_nonneg; lia).
  assert (HP' : 0 < 2 ^ k') by (apply Z.pow_pos_nonneg; lia).
  destruct (Z.eq_dec k k') as [E|E].
  - rewrite <- E. apply Z.mul_le_mono_nonneg_r; [lia|].
    apply rne_mono; nia.
  - (* different binades: 2^(k' + 23) lies between the two results *)
    assert (Hk' : k' = Z.log2 t' - (F32.bits - 1)) by (unfold k' in *; lia).
    assert (Hlog' : 0 < Z.log2 t') by (unfold F32.bits in *; lia).
    assert (Ht' : 0 < t').
    { destruct (Z.le_gt_cases t' 0) as [L|G]; [|lia].
      rewrite (Z.log2_nonpos t' L) in Hlog'. lia. }
    pose proof (Z.log2_spec t' Ht') as [Hlo _].
    pose proof (Z.div_mod n' d' ltac:(lia)) as Hdm'.
    pose proof (Z.mod_pos_bound n' d' Hd') as Hr'.
    pose proof (Z.div_mod n d ltac:(lia)) as Hdm.
    pose proof (Z.mod_pos_bound n d Hd) as Hr.
    fold t in Hdm. fold t' in Hdm'.
    pose proof (below_next_power t Ht0) as Hup.
    assert (Hsplit' : 2 ^ Z.log2 t' = 2 ^ (F32.bits - 1) * 2 ^ k').
    { rewrite <- Z.pow_add_r by (unfold F32.bits; lia). f_equal. lia. }
    assert (Hpow : 0 < 2 ^ (F32.bits - 1)) by (apply Z.pow_pos_nonneg; unfold F32.bits; lia).
    transitivity (2 ^ (F32.bits - 1) * 2 ^ k').
    + (* the smaller one stays below *)
      assert (Hsplit : 2 ^ (F32.bits - 1) * 2 ^ k' = 2 ^ (k' + (F32.bits - 1) - k) * 2 ^ k).
      { rewrite <- !Z.pow_add_r by (unfold F32.bits; lia). f_equal. lia. }
      rewrite Hsplit. apply Z.mul_le_mono_nonneg_r; [lia|].
      apply rne_upper; [nia|].
      rewrite Z.mul_assoc, (Z.mul_comm _ d), <- Z.mul_assoc, <- Hsplit.
      assert (Hle : 2 ^ (Z.log2 t + 1) <= 2 ^ (F32.bits - 1) * 2 ^ k').
      { rewrite <- Z.pow_add_r by (unfold F32.bits; lia).
        apply Z.pow_le_mono_r; [lia|]. unfold k in *. lia. }
      nia.
    + apply Z.mul_le_mono_nonneg_r; [lia|].
      apply rne_lower; [nia|]. nia.
Qed.

Lemma units_nonneg (x : Q) : 0 <= Qnum x -> 0 <= F32.units x.
Proof.
  intros Hx. unfold F32.units.
  set (n := Qnum x * 2 ^ F32.quantum).
  assert (0 <= n) by (unfold n; apply Z.mul_nonneg_nonneg; [lia|]; apply Z.pow_nonneg; lia).
  set (k := Z.max 0 _).
  assert (0 < 2 ^ k) by (apply Z.pow_pos_nonneg; unfold k; lia).
  apply Z.mul_nonneg_nonneg; [|lia].
  apply rne_lower; [nia|lia].
Qed.

Lemma round_mono (x y : Q) : (x <= y)%Q -> (F32.round x <= F32.round y)%Q.
Proof.
  intros H. unfold F32.round.
  destruct (Z.ltb_spec (Qnum x) 0) as [Nx|Px];
    destruct (Z.ltb_spec (Qnum y) 0) as [Ny|Py].
  - assert (Hm : F32.units (- y) <= F32.units (- x)).
    { apply units_mono; [simpl; lia|]. apply Qopp_le_compat, H. }
    unfold Qle; simpl. nia.
  - pose proof (units_nonneg (- x) ltac:(simpl; lia)).
    pose proof (units_nonneg y Py).
    unfold Qle; simpl. nia.
  - exfalso. unfold Qle in H. nia.
  - pose proof (units_mono x y Px H). unfold Qle; simpl. nia.
Qed.

Lemma rne_exact k b : 0 < b -> F32.rne (k * b) b = k.
Proof.
  intros Hb. apply Z.le_antisymm; [apply rne_upper|apply rne_lower]; lia.
Qed.

(** Integers below 2^24 are binary32 numbers. *)
Lemma units_int (z : Z) :
  0 <= z < 2 ^ F32.bits -> F32.units (inject_Z z) = z * 2 ^ F32.quantum.
Proof.
  intros [H0 H1]. unfold F32.units. simpl Qnum. simpl Qden.
  rewrite Z.div_1_r.
  destruct (Z.eq_dec z 0) as [->|Hz]; [reflexivity|].
  rewrite Z.log2_mul_pow2 by (unfold F32.quantum; lia).
  assert (Hl : Z.log2 z < F32.bits) by (apply Z.log2_lt_pow2; lia).
  pose proof (Z.log2_nonneg z) as Hl0.
  rewrite Z.max_r by (unfold F32.quantum, F32.bits in *; lia).
  set (k := F32.quantum + Z.log2 z - (F32.bits - 1)).
  assert (Hk : 0 <= k) by (unfold k, F32.quantum, F32.bits in *; lia).
  assert (Hs : 2 ^ F32.quantum = 2 ^ (F32.bits - 1 - Z.log2 z) * 2 ^ k).
  { rewrite <- Z.pow_add_r by lia. f_equal. unfold k. lia. }
  rewrite Z.mul_1_l. rewrite Hs at 1. rewrite Z.mul_assoc, rne_exact
    by (apply Z.pow_pos_nonneg; lia).
  rewrite <- Z.mul_assoc, <- Hs. reflexivity.
Qed.

Lemma round_int (z : Z) :
  0 <= z < 2 ^ F32.bits -> (F32.round (inject_Z z) == inject_Z z)%Q.
Proof.
  intros H. unfold F32.round. simpl Qnum.
  destruct (Z.ltb_spec z 0); [lia|].
  rewrite units_int by exact H.
  unfold Qeq; simpl. unfold F32.quantum. lia.
Qed.


(** *** Truncation *)

Lemma quot_le_cross (a c b d : Z) :
  0 < b -> 0 < d -> 0 <= a -> a * d <= c * b -> a ÷ b <= c ÷ d.
Proof.
  intros Hb Hd Ha H.
  assert (Hc : 0 <= c) by nia.
  rewrite !Z.quot_div_nonneg by lia.
  apply Z.div_le_lower_bound; [lia|].
  pose proof (Z.mul_div_le a b Hb).
  pose proof (Z.div_pos a b Ha Hb).
  apply (Z.mul_le_mono_pos_l _ _ b); [lia|].
  nia.
Qed.

(** Truncation towards zero is monotone. *)
Lemma Qtrunc_le (p q : Q) : (p <= q)%Q -> Qtrunc p <= Qtrunc q.
Proof.
  destruct p as [a b], q as [c d]. unfold Qle, Qtrunc; simpl. intros H.
  destruct (Z.le_gt_cases 0 a) as [Sa|Sa].
  - apply quot_le_cross; lia.
  - destruct (Z.le_gt_cases 0 c) as [Sc|Sc].
    + pose proof (Z.quot_pos c (Z.pos d) Sc ltac:(lia)).
      pose proof (Z.quot_pos (- a) (Z.pos b) ltac:(lia) ltac:(lia)) as Hq.
      rewrite Z.quot_opp_l in Hq by lia. lia.
    + pose proof (quot_le_cross (- c) (- a) (Z.pos d) (Z.pos b)
                    ltac:(lia) ltac:(lia) ltac:(lia) ltac:(lia)) as Hq.
      rewrite !Z.quot_opp_l in Hq by lia. lia.
Qed.

(** *** [int(row[k] * shape)] *)

Lemma Qeq_Qle (a b : Q) : (a == b)%Q -> (a <= b)%Q.
Proof. unfold Qeq, Qle. lia. Qed.

Lemma F32_of_int_nonneg (n : Z) : 0 <= n -> (0 <= F32.of_int n)%Q.
Proof.
  intros H. unfold F32.of_int, F32.round. simpl Qnum.
  destruct (Z.ltb_spec n 0); [lia|].
  pose proof (units_nonneg (inject_Z n) H). unfold Qle; simpl. lia.
Qed.

Lemma Qtrunc_of_int (n : Z) :
  0 <= n < 2 ^ F32.bits -> Qtrunc (F32.of_int n) = n.
Proof.
  intros H. unfold F32.of_int, F32.round. simpl Qnum.
  destruct (Z.ltb_spec n 0); [lia|].
  rewrite units_int by exact H.
  unfold Qtrunc; simpl. apply Z.quot_mul. lia.
Qed.

(** The truncated float32 product grows with its first factor. *)
Lemma denorm_le (p q : Q) (n : Z) :
  (p <= q)%Q -> 0 <= n ->
  Qtrunc (F32.mul p (F32.of_int n)) <= Qtrunc (F32.mul q (F32.of_int n)).
Proof.
  intros H Hn. apply Qtrunc_le, round_mono, Qmult_le_compat_r; [exact H|].
  apply F32_of_int_nonneg, Hn.
Qed.

(** For a factor in [0, 1] and an int below 2^24, which float32 holds
    exactly, it lies between 0 and the int. *)
Lemma denorm_bounds (q : Q) (n : Z) :
  (0 <= q <= 1)%Q -> 0 <= n < 2 ^ 24 ->
  0 <= Qtrunc (F32.mul q (F32.of_int n)) <= n.
Proof.
  intros [H0 H1] Hn. split.
  - change 0 with (Qtrunc (F32.round 0)).
    apply Qtrunc_le, round_mono, Qmult_le_0_compat; [exact H0|].
    apply F32_of_int_nonneg. lia.
  - rewrite <- (Qtrunc_of_int n) at 2 by exact Hn.
    apply Qtrunc_le. unfold F32.mul, F32.of_int at 2.
    apply round_mono.
    apply Qle_trans with (1 * F32.of_int n)%Q.
    + apply Qmult_le_compat_r; [exact H1|]. apply F32_of_int_nonneg. lia.
    + rewrite Qmult_1_l. apply Qeq_Qle, round_int, Hn.
Qed.

Lemma nth_error_skipn {A} (l : list A) :
  forall i x, nth_error l i = Some x -> skipn i l = x :: skipn (S i) l.
Proof.
  induction l as [|y l IH]; intros [|i] x H; simpl in *; try discriminate.
  - congruence.
  - apply IH, H.
Qed.

Section PlotBoxes.

Variables (cord : list Row) (n : nat) (x_shape y_shape : Z).

(** The loop of [plot_boxes] over the indices [a, a+1, ..., a+k-1], all
    of them rows of [cord], completes and appends the calls of each row
    in turn. *)
Lemma plot_rows_spec k :
  forall a frame,
    (a + k <= List.length cord)%nat ->
    plot_rows cord n x_shape y_shape (seq a k) frame =
    inr (mkFrame (height frame) (width frame) (pixels frame)
           (overlay frame ++
            flat_map (row_ops n x_shape y_shape) (firstn k (skipn a cord)))).
Proof.
  induction k as [|k IH]; intros a frame Hlen; simpl.
  - rewrite app_nil_r. destruct frame; reflexivity.
  - destruct (nth_error cord a) as [row|] eqn:E.
    + rewrite IH by lia. rewrite (nth_error_skipn _ _ _ E).
      simpl. unfold draw; simpl. rewrite <- !app_assoc. reflexivity.
    + apply nth_error_None in E. lia.
Qed.

End PlotBoxes.

Lemma plot_boxes_spec labels cord frame :
  List.length labels = List.length cord ->
  plot_boxes (labels, cord) frame =
  inr (mkFrame (height frame) (width frame) (pixels frame)
         (overlay frame ++
          flat_map (row_ops (List.length cord) (width frame) (height frame))
                   cord)).
Proof.
  intros H. unfold plot_boxes. rewrite plot_rows_spec by lia.
  rewrite H. simpl. rewrite firstn_all. reflexivity.
Qed.

(** Without detections [plot_boxes] makes no drawing call at all. *)
Lemma plot_boxes_no_rows frame : plot_boxes ([], []) frame = inr frame.
Proof. destruct frame; reflexivity. Qed.

(** On what [score_frame] returns, [plot_boxes] raises nothing. *)
Lemma plot_boxes_scored self frame :
  exists frame', annotated self frame frame'.
Proof.
  unfold annotated, score_frame. eexists.
  apply plot_boxes_spec. rewrite !length_map. reflexivity.
Qed.

(** ** The loop *)

Section Loop.

Variables (w : World) (self : ObjectDetection) (tfc : Z).

Lemma loop_nil l :
  loop w self tfc [] l =
  (None,
   mkLocals (fc l + 1) (fps l) (tfcc l) (written l) (stdout l)
            (S (iteration l)),
   []).
Proof. reflexivity. Qed.

Lemma loop_failed_read reads l :
  loop w self tfc (None :: reads) l =
  (None,
   mkLocals (fc l + 1) (fps l) (tfcc l) (written l) (stdout l)
            (S (iteration l)),
   reads).
Proof. reflexivity. Qed.

(** One iteration on a frame that was read. *)
Lemma loop_frame f f' reads l :
  annotated self f f' ->
  loop w self tfc (Some f :: reads) l =
  let fc1 := fc l + 1 in
  let fps1 :=
    Np.add (as_float (fps l))
           (Np.div (Np.of_int 1) (elapsed w (iteration l))) in
  if fc1 =? 10 then
    match report tfc fc1 fps1 (tfcc l) with
    | inl e =>
      (Some e,
       mkLocals fc1 (NpFloat fps1) (tfcc l) (written l) (stdout l)
                (S (iteration l)),
       reads)
    | inr (fps2, tfcc1, fc2, line) =>
      loop w self tfc reads
           (mkLocals fc2 (PyInt fps2) tfcc1 (written l ++ [f'])
                     (stdout l ++ [line]) (S (iteration l)))
    end
  else
    loop w self tfc reads
         (mkLocals fc1 (NpFloat fps1) (tfcc l) (written l ++ [f'])
                   (stdout l) (S (iteration l))).
Proof.
  intros H. unfold annotated in H. cbn [loop]. rewrite H. reflexivity.
Qed.

Lemma report_resets_fc fc1 fps1 tfcc0 fps2 tfcc1 fc2 line :
  report tfc fc1 fps1 tfcc0 = inr (fps2, tfcc1, fc2, line) -> fc2 = 0.
Proof.
  unfold report.
  destruct (Np.to_int _); [discriminate|].
  destruct (Np.int_truediv _ _); [discriminate|].
  destruct (Np.to_int _); [discriminate|].
  intros H; inversion H; reflexivity.
Qed.

Lemma readable_app_length a b :
  (List.length (readable a) <= List.length (readable (a ++ b)))%nat.
Proof.
  induction a as [|[f|] a IH]; simpl; lia.
Qed.

(** What any execution of the loop does, from any state with
    [0 <= fc < 10]: it consumes a prefix of the reads; the frames it
    writes are the annotated versions of the frames it read, in order,
    except that the frame in hand when an exception is raised is not
    written; and it prints one line each time the frame counter, which
    advances with every frame written, reaches 10. *)
Lemma loop_spec reads :
  forall l e l' rest,
    loop w self tfc reads l = (e, l', rest) ->
    0 <= fc l < 10 ->
    exists consumed new lines,
      reads = consumed ++ rest /\
      written l' = written l ++ new /\
      stdout l' = stdout l ++ lines /\
      (List.length new <= List.length (readable consumed))%nat /\
      Forall2 (annotated self)
              (firstn (List.length new) (readable consumed)) new /\
      (e = None ->
       Forall2 (annotated self) (readable consumed) new /\
       readable consumed = readable reads) /\
      Z.of_nat (List.length lines) =
      (fc l + Z.of_nat (List.length new)) / 10 /\
      (forall x, e = Some x ->
                 exists fps1 tfcc0, report tfc 10 fps1 tfcc0 = inl x).
Proof.
  induction reads as [|[f|] reads IH]; intros l e l' rest H Hfc.
  - rewrite loop_nil in H. inversion H; subst; clear H.
    exists [], [], []. simpl. rewrite !app_nil_r.
    repeat split; auto; try discriminate.
    rewrite Z.add_0_r, Z.div_small; lia.
  - destruct (plot_boxes_scored self f) as [f' Hf'].
    rewrite (loop_frame f f' reads l Hf') in H. cbv zeta in H.
    destruct (fc l + 1 =? 10) eqn:E.
    + apply Z.eqb_eq in E.
      destruct (report tfc (fc l + 1) _ (tfcc l))
        as [x|[[[fps2 tfcc1] fc2] line]] eqn:R.
      * inversion H; subst; clear H.
        exists [Some f], [], []. simpl. rewrite !app_nil_r.
        repeat split; auto; try lia; try discriminate.
        -- rewrite Z.add_0_r, Z.div_small; lia.
        -- intros y Hy. inversion Hy; subst. rewrite E in R. eauto.
      * pose proof (report_resets_fc _ _ _ _ _ _ _ R) as ->.
        apply IH in H; [|simpl; lia].
        destruct H as (consumed & new & lines & Hc & Hw & Hs & Hle & Hp & Hn & Hl & Hx).
        simpl in Hw, Hs, Hl.
        exists (Some f :: consumed), (f' :: new), (line :: lines).
        rewrite Hw, Hs, <- !app_assoc. simpl.
        repeat split; auto; try lia; try (f_equal; assumption).
        -- constructor; auto. apply Hn; assumption.
        -- f_equal. apply Hn; assumption.
        -- replace (fc l + Z.pos (Pos.of_succ_nat (List.length new)))
             with (Z.of_nat (List.length new) + 1 * 10) by lia.
           rewrite Z.div_add by lia. lia.
    + apply Z.eqb_neq in E.
      apply IH in H; [|simpl; lia].
      destruct H as (consumed & new & lines & Hc & Hw & Hs & Hle & Hp & Hn & Hl & Hx).
      simpl in Hw, Hs, Hl.
      exists (Some f :: consumed), (f' :: new), lines.
      rewrite Hw, Hs, <- !app_assoc. simpl.
      repeat split; auto; try lia; try (f_equal; assumption).
      * constructor; auto. apply Hn; assumption.
      * f_equal. apply Hn; assumption.
      * rewrite Hl. f_equal. lia.
  - rewrite loop_failed_read in H. inversion H; subst; clear H.
    exists [None], [], []. simpl. rewrite !app_nil_r.
    repeat split; auto; try discriminate.
    rewrite Z.add_0_r, Z.div_small; lia.
Qed.

(** A stream that fails before the frame counter can reach 10 leaves the
    loop by [break]. *)
Lemma loop_short reads :
  forall l,
    0 <= fc l ->
    fc l + Z.of_nat (List.length (readable reads)) < 10 ->
    fst (fst (loop w self tfc reads l)) = None.
Proof.
  induction reads as [|[f|] reads IH]; intros l H0 H; try reflexivity.
  destruct (plot_boxes_scored self f) as [f' Hf'].
  rewrite (loop_frame f f' reads l Hf'). cbv zeta.
  simpl readable in H. simpl List.length in H.
  destruct (fc l + 1 =? 10) eqn:E; [apply Z.eqb_eq in E; lia|].
  apply IH; simpl; lia.
Qed.

(** [k] frames that do not bring the frame counter to 10 are all
    written, and the accumulator gathers their reciprocal times. *)
Lemma loop_window fs :
  forall fs' f f' rest l,
    annotated self f f' ->
    Forall2 (annotated self) fs fs' ->
    0 <= fc l ->
    fc l + 1 + Z.of_nat (List.length fs) < 10 ->
    loop w self tfc (Some f :: map Some fs ++ rest) l =
    loop w self tfc rest
         (mkLocals (fc l + 1 + Z.of_nat (List.length fs))
            (NpFloat (accumulate w (as_float (fps l)) (iteration l)
                                 (S (List.length fs))))
            (tfcc l) (written l ++ f' :: fs') (stdout l)
            (S (iteration l) + List.length fs)).
Proof.
  induction fs as [|g fs IH]; intros fs' f f' rest l Hf Hfs H0 H.
  - inversion Hfs; subst. rewrite (loop_frame f f' _ l Hf). cbv zeta.
    simpl List.length in *.
    destruct (fc l + 1 =? 10) eqn:E; [apply Z.eqb_eq in E; lia|].
    simpl map. simpl app. rewrite Z.add_0_r, Nat.add_0_r. reflexivity.
  - inversion Hfs as [|? g' ? gs' Hg Hgs]; subst.
    rewrite (loop_frame f f' _ l Hf). cbv zeta.
    simpl List.length in *.
    destruct (fc l + 1 =? 10) eqn:E; [apply Z.eqb_eq in E; lia|].
    simpl map. rewrite <- app_comm_cons.
    rewrite (IH gs' g g' rest _ Hg Hgs); cbn [fc fps tfcc written stdout iteration as_float]; try lia.
    f_equal. f_equal; try lia.
    + rewrite <- app_assoc. reflexivity.
Qed.

End Loop.

Section FirstWindow.

Variables (w : World) (self : ObjectDetection) (tfc : Z).

Lemma annotated_all fs : exists fs', Forall2 (annotated self) fs fs'.
Proof.
  induction fs as [|f fs [fs' IH]].
  - exists []. constructor.
  - destruct (plot_boxes_scored self f) as [f' Hf'].
    exists (f' :: fs'). constructor; assumption.
Qed.

(** A stream that delivers ten frames takes the loop, from its initial
    state, to the first progress report: nine frames have been written
    and the accumulator holds the ten reciprocal times. *)
Lemma loop_first_report fs rest :
  List.length fs = 10%nat ->
  exists nine tenth,
    List.length nine = 9%nat /\
    loop w self tfc (map Some fs ++ rest) (mkLocals 0 (PyInt 0) 0 [] [] 0) =
    match report tfc 10 (accumulate w (Np.of_int 0) 0 10) 0 with
    | inl e =>
      (Some e,
       mkLocals 10 (NpFloat (accumulate w (Np.of_int 0) 0 10)) 0 nine [] 10,
       rest)
    | inr (fps2, tfcc1, fc2, line) =>
      loop w self tfc rest
           (mkLocals fc2 (PyInt fps2) tfcc1 (nine ++ [tenth]) [line] 10)
    end.
Proof.
  intros Hlen.
  destruct fs as [|f1 fs]; [discriminate|].
  destruct (exists_last (l := fs)) as (mid & f10 & ->);
    [destruct fs; discriminate|].
  rewrite length_cons, length_app in Hlen. simpl in Hlen.
  assert (Hmid : List.length mid = 8%nat) by lia.
  destruct (plot_boxes_scored self f1) as [f1' H1].
  destruct (plot_boxes_scored self f10) as [f10' H10].
  destruct (annotated_all mid) as [mid' Hm].
  pose proof (Forall2_length Hm) as Hlen'.
  exists (f1' :: mid'), f10'. split; [simpl; lia|].
  simpl map. rewrite map_app, <- app_comm_cons, <- app_assoc. simpl map. simpl app.
  rewrite (loop_window w self tfc mid mid' f1 f1' _ _ H1 Hm);
    cbn [fc fps tfcc written stdout iteration as_float]; try lia.
  rewrite (loop_frame w self tfc f10 f10' rest _ H10).
  cbn [fc fps tfcc written stdout iteration as_float]. cbv zeta.
  rewrite Hmid.
  change (0 + 1 + Z.of_nat 8 + 1) with 10.
  change (10 =? 10) with true. cbv iota.
  change (S (1 + 8)) with 10%nat.
  replace (Np.add (accumulate w (Np.of_int 0) 0 9)
                  (Np.div (Np.of_int 1) (elapsed w (1 + 8))))
    with (accumulate w (Np.of_int 0) 0 10)
    by (rewrite (accumulate_snoc w 9); reflexivity).
  reflexivity.
Qed.

(** If that report raises, the run of the loop ends there. *)
Lemma first_report_raises fs rest x :
  List.length fs = 10%nat ->
  report tfc 10 (accumulate w (Np.of_int 0) 0 10) 0 = inl x ->
  exists l,
    loop w self tfc (map Some fs ++ rest) (mkLocals 0 (PyInt 0) 0 [] [] 0)
    = (Some x, l, rest) /\
    List.length (written l) = 9%nat /\ stdout l = [].
Proof.
  intros Hlen R.
  destruct (loop_first_report fs rest Hlen) as (nine & tenth & Hnine & ->).
  rewrite R. eexists. split; [reflexivity|]. split; [exact Hnine|reflexivity].
Qed.

End FirstWindow.

(** ** [__call__] *)

Lemma call_unopened w self :
  source w (input_file self) = None ->
  call w self =
  mkRun (Some AssertionError) (mkCapture false 0 0 0 [] false) None [].
Proof.
  intros H. unfold call, get_video_from_file, cv2_VideoCapture.
  rewrite H. reflexivity.
Qed.

Lemma call_opened w self v :
  source w (input_file self) = Some v ->
  call w self =
  let '(e, l, rest) :=
    loop w self (v_count v) (v_reads v) (mkLocals 0 (PyInt 0) 0 [] [] 0) in
  let player1 :=
    mkCapture true (v_width v) (v_height v) (v_count v) rest false in
  let out1 :=
    mkWriter (out_file self) "MJPG" 20 (v_width v, v_height v) (written l)
             false in
  match e with
  | Some e => mkRun (Some e) player1 (Some out1) (stdout l)
  | None => mkRun None (release player1) (Some out1) (stdout l)
  end.
Proof.
  intros H. unfold call, get_video_from_file, cv2_VideoCapture.
  rewrite H. reflexivity.
Qed.


(** The observable parts of a run on an opened source are those of its
    loop. *)
Lemma call_fields w self v e l rest :
  source w (input_file self) = Some v ->
  loop w self (v_count v) (v_reads v) (mkLocals 0 (PyInt 0) 0 [] [] 0)
  = (e, l, rest) ->
  raised (call w self) = e /\
  frames_out (call w self) = written l /\
  printed (call w self) = stdout l /\
  pending (player (call w self)) = rest.
Proof.
  intros Hsrc L. rewrite (call_opened w self v Hsrc), L.
  destruct e; repeat split.
Qed.

(** * The claims *)

(** C1.  The counter is drawn inside the per-detection loop of
    [plot_boxes], so a frame without detections is returned as it came,
    with no drawing call made.  On a 10-frame video for which the model detects nothing, the run ends
    normally, writes the 10 frames exactly as they were read (none carries
    the text "Total Targets: 0"), and prints exactly one progress line. *)
Theorem C1_frames_without_detections_carry_no_counter :
  (forall frame, plot_boxes ([], []) frame = inr frame) /\
  let r := call Scenario.quiet10 (Scenario.job Scenario.quiet10) in
  raised r = None /\
  frames_out r = readable (Scenario.clip 10) /\
  List.length (frames_out r) = 10%nat /\
  Forall (fun f => overlay f = []) (frames_out r) /\
  printed r = ["Frames Per Second : 100 || Percentage Parsed : 100"].
Proof.
  split; [exact plot_boxes_no_rows|].
  vm_compute. repeat split; repeat constructor.
Qed.

(** C2, as stated, fails: a run stopped by an exception (here the division
    by a reported frame count of 0 at the tenth frame) leaves both streams
    unreleased, and a run that ends normally leaves the writer
    unreleased. *)
Lemma C2_counterexample :
  (let r := call Scenario.uncounted (Scenario.job Scenario.uncounted) in
   raised r = Some ZeroDivisionError /\
   cap_released (player r) = false /\
   option_map w_released (out r) = Some false) /\
  (let r := call Scenario.quiet10 (Scenario.job Scenario.quiet10) in
   raised r = None /\
   option_map w_released (out r) = Some false).
Proof.
  vm_compute. repeat split.
Qed.

(** C2, amended.  When the loop is left by [break], the input stream is
    released after it; when the run is ended by an exception, neither the
    input stream nor the output stream is released. *)
Theorem C2_input_released_on_normal_exit_only :
  forall (w : World) (self : ObjectDetection),
    let r := call w self in
    (raised r = None -> cap_released (player r) = true) /\
    (forall e, raised r = Some e ->
               cap_released (player r) = false /\
               forall wr, out r = Some wr -> w_released wr = false).
Proof.
  intros w self r. subst r.
  destruct (source w (input_file self)) as [v|] eqn:Hsrc.
  - rewrite (call_opened w self v Hsrc).
    destruct (loop w self (v_count v) (v_reads v) _) as [[[e|] l] rest];
      cbv zeta; simpl; split; try discriminate; auto.
    intros _ _. split; [reflexivity|].
    intros wr H. inversion H; reflexivity.
  - rewrite (call_unopened w self Hsrc). simpl.
    split; [discriminate|]. intros _ _. split; [reflexivity|discriminate].
Qed.

(** The amended C2 on a run that ends normally and on one that raises. *)
Lemma C2_witness :
  (raised (call Scenario.quiet10 (Scenario.job Scenario.quiet10)) = None /\
   cap_released (player (call Scenario.quiet10 (Scenario.job Scenario.quiet10)))
   = true) /\
  (raised (call Scenario.uncounted (Scenario.job Scenario.uncounted))
   = Some ZeroDivisionError /\
   cap_released
     (player (call Scenario.uncounted (Scenario.job Scenario.uncounted)))
   = false).
Proof.
  destruct (C2_input_released_on_normal_exit_only
              Scenario.quiet10 (Scenario.job Scenario.quiet10)) as [HA _].
  destruct (C2_input_released_on_normal_exit_only
              Scenario.uncounted (Scenario.job Scenario.uncounted)) as [_ HB].
  assert (EA : raised (call Scenario.quiet10 (Scenario.job Scenario.quiet10))
               = None) by (vm_compute; reflexivity).
  assert (EB : raised (call Scenario.uncounted (Scenario.job Scenario.uncounted))
               = Some ZeroDivisionError) by (vm_compute; reflexivity).
  split; split;
    [exact EA | exact (HA EA) | exact EB | exact (proj1 (HB _ EB))].
Defined.

(** C3.  At a report the frame counter is reset to 0, but the accumulator
    is left holding the average just printed, which is then counted into
    the next window: on 20 frames that each take 10 ms (100 frames per
    second throughout), the second line reports 110. *)
Theorem C3_fps_window_carries_previous_average :
  let r := call Scenario.quiet20 (Scenario.job Scenario.quiet20) in
  raised r = None /\
  printed r = ["Frames Per Second : 100 || Percentage Parsed : 50";
               "Frames Per Second : 110 || Percentage Parsed : 100"].
Proof.
  vm_compute. split; reflexivity.
Qed.

(** C4.  The driver reads its two arguments and then builds the object
    from the two paths written in the cell: whatever the arguments, the
    run is the run on those two paths.  With ["in.mp4"] present and given
    as first argument, it still fails to open its input. *)
Theorem C4_driver_ignores_its_arguments :
  (forall (w : World) (prog link output_file : string) (more : list string),
     driver w (prog :: link :: output_file :: more) =
     inr (init w driver_input driver_output,
          call w (init w driver_input driver_output))) /\
  (source Scenario.quiet10 "in.mp4" <> None /\
   exists a r,
     driver Scenario.quiet10 ["prog"; "in.mp4"; "out.avi"] = inr (a, r) /\
     input_file a = driver_input /\ out_file a = driver_output /\
     input_file a <> "in.mp4" /\ out_file a <> "out.avi" /\
     raised r = Some AssertionError /\ out r = None).
Proof.
  split; [reflexivity|].
  split; [discriminate|].
  eexists _, _. split; [reflexivity|].
  repeat split; try discriminate; reflexivity.
Qed.

(** C5.  When the input path cannot be opened, the run stops with the
    failed assertion [player.isOpened()]: no writer has been created, no
    frame read, nothing printed. *)
Theorem C5_unopenable_input_aborts_before_output :
  forall (w : World) (self : ObjectDetection),
    source w (input_file self) = None ->
    let r := call w self in
    raised r = Some AssertionError /\
    out r = None /\
    frames_out r = [] /\
    printed r = [].
Proof.
  intros w self H r. subst r. rewrite (call_unopened w self H).
  repeat split.
Qed.

(** C5 on a path that names no source. *)
Lemma C5_witness :
  source Scenario.quiet10
         (input_file (init Scenario.quiet10 "missing.mp4" "out.avi")) = None /\
  raised (call Scenario.quiet10 (init Scenario.quiet10 "missing.mp4" "out.avi"))
  = Some AssertionError /\
  out (call Scenario.quiet10 (init Scenario.quiet10 "missing.mp4" "out.avi"))
  = None.
Proof.
  split; [reflexivity|].
  pose proof (C5_unopenable_input_aborts_before_output
                Scenario.quiet10
                (init Scenario.quiet10 "missing.mp4" "out.avi") eq_refl) as H.
  split; apply H.
Defined.

(** C6.  In every run the number of progress lines printed is the number
    of frames written divided by 10, rounded down; in a run that ends
    normally it is the number of frames read divided by 10, rounded down;
    a stream that delivers fewer than 10 frames gets no line. *)
Theorem C6_one_progress_line_per_ten_frames :
  forall (w : World) (self : ObjectDetection),
    let r := call w self in
    List.length (printed r) = (List.length (frames_out r) / 10)%nat /\
    (forall v, source w (input_file self) = Some v ->
       (raised r = None ->
        List.length (printed r) =
        (List.length (readable (v_reads v)) / 10)%nat) /\
       ((List.length (readable (v_reads v)) < 10)%nat -> printed r = [])).
Proof.
  intros w self r. subst r.
  destruct (source w (input_file self)) as [v|] eqn:Hsrc.
  - destruct (loop w self (v_count v) (v_reads v) (mkLocals 0 (PyInt 0) 0 [] [] 0))
      as [[e l] rest] eqn:L.
    destruct (call_fields w self v e l rest Hsrc L) as (-> & -> & -> & _).
    apply loop_spec in L; [|simpl; lia].
    destruct L as (consumed & new & lines & Hc & Hw & Hs & Hle & Hp & Hn & Hl & Hx).
    simpl in Hw, Hs, Hl. rewrite Hw, Hs.
    assert (Hdiv : List.length lines = (List.length new / 10)%nat).
    { apply Nat2Z.inj. rewrite Hl, Nat2Z.inj_div. reflexivity. }
    split; [exact Hdiv|].
    intros v' Hv'. inversion Hv'; subst v'. split.
    + intros He. destruct (Hn He) as [Hall Heq].
      rewrite Hdiv, <- Heq, (Forall2_length Hall). reflexivity.
    + intros Hshort.
      pose proof (readable_app_length consumed rest) as Hpre.
      rewrite <- Hc in Hpre.
      assert (H0 : (List.length new / 10 = 0)%nat)
        by (apply Nat.div_small; lia).
      rewrite H0 in Hdiv. destruct lines; [reflexivity|discriminate].
  - rewrite (call_unopened w self Hsrc). simpl.
    split; [reflexivity|]. intros v H; discriminate.
Qed.

(** C6 on a stream of 7 readable frames and on a normal run of 20. *)
Lemma C6_witness :
  source Scenario.damaged (input_file (Scenario.job Scenario.damaged))
  = Some (mkVideo 640 480 13 (Scenario.clip 7 ++ None :: Scenario.clip 5)) /\
  (List.length (readable (Scenario.clip 7 ++ None :: Scenario.clip 5)) < 10)%nat /\
  printed (call Scenario.damaged (Scenario.job Scenario.damaged)) = [] /\
  source Scenario.quiet20 (input_file (Scenario.job Scenario.quiet20))
  = Some (mkVideo 640 480 20 (Scenario.clip 20)) /\
  raised (call Scenario.quiet20 (Scenario.job Scenario.quiet20)) = None /\
  List.length (printed (call Scenario.quiet20 (Scenario.job Scenario.quiet20)))
  = (List.length (readable (Scenario.clip 20)) / 10)%nat.
Proof.
  destruct (C6_one_progress_line_per_ten_frames
              Scenario.damaged (Scenario.job Scenario.damaged)) as [_ HA].
  destruct (C6_one_progress_line_per_ten_frames
              Scenario.quiet20 (Scenario.job Scenario.quiet20)) as [_ HB].
  specialize (HA _ eq_refl). specialize (HB _ eq_refl).
  assert (S7 : (List.length (readable (Scenario.clip 7 ++ None :: Scenario.clip 5))
                < 10)%nat) by (vm_compute; lia).
  assert (E20 : raised (call Scenario.quiet20 (Scenario.job Scenario.quiet20))
                = None) by (vm_compute; reflexivity).
  split; [reflexivity|]. split; [exact S7|].
  split; [exact (proj2 HA S7)|].
  split; [reflexivity|]. split; [exact E20|].
  exact (proj1 HB E20).
Defined.

Section Raised.

Variables (w : World) (self : ObjectDetection) (tfc : Z).

Lemma readable_map_Some fs : readable (map Some fs) = fs.
Proof. induction fs as [|f fs IH]; simpl; congruence. Qed.

(** A run of the loop that raises has read frames only, and has written
    the annotated versions of all of them but the last. *)
Lemma loop_raised reads :
  forall l x l' rest,
    loop w self tfc reads l = (Some x, l', rest) ->
    exists pre f new,
      reads = map Some (pre ++ [f]) ++ rest /\
      written l' = written l ++ new /\
      Forall2 (annotated self) pre new.
Proof.
  induction reads as [|[f|] reads IH]; intros l x l' rest H.
  - rewrite loop_nil in H. discriminate.
  - destruct (plot_boxes_scored self f) as [f' Hf'].
    rewrite (loop_frame w self tfc f f' reads l Hf') in H. cbv zeta in H.
    assert (Hstep : forall l0,
               written l0 = written l ++ [f'] ->
               loop w self tfc reads l0 = (Some x, l', rest) ->
               exists pre f0 new,
                 Some f :: reads = map Some (pre ++ [f0]) ++ rest /\
                 written l' = written l ++ new /\
                 Forall2 (annotated self) pre new).
    { intros l0 Hw0 H0. apply IH in H0.
      destruct H0 as (pre & f0 & new & Hr & Hw & Hall).
      exists (f :: pre), f0, (f' :: new). rewrite Hr, Hw, Hw0, <- app_assoc.
      repeat split. constructor; assumption. }
    destruct (fc l + 1 =? 10).
    + destruct (report tfc (fc l + 1) _ (tfcc l))
        as [y|[[[fps2 tfcc1] fc2] line]].
      * inversion H; subst; clear H.
        exists [], f, []. cbn [written]. rewrite app_nil_r.
        repeat split. constructor.
      * eapply Hstep; [|exact H]; reflexivity.
    + eapply Hstep; [|exact H]; reflexivity.
  - rewrite loop_failed_read in H. discriminate.
Qed.

End Raised.

(** C7, as stated, fails: on 10 frames behind a source that reports a
    frame count of 0 all ten frames are read, the report of the tenth
    raises, and nine frames are written. *)
Lemma C7_counterexample :
  let r := call Scenario.uncounted (Scenario.job Scenario.uncounted) in
  raised r = Some ZeroDivisionError /\
  pending (player r) = [] /\
  List.length (readable (Scenario.clip 10)) = 10%nat /\
  List.length (frames_out r) = 9%nat.
Proof.
  vm_compute. repeat split.
Qed.

(** C7, amended.  A run on an opened source consumes a prefix of the
    stream's reads, and the number of frames written is at most the number
    read.  When the run ends normally, by a read that fails, the frames
    written are the annotated versions of all frames read, in order and
    each once.  When it ends by an exception, which only the progress
    report raises, every read had succeeded and the frames written are the
    annotated versions, in order and each once, of all frames read but the
    last: one frame fewer than were read. *)
Theorem C7_frames_written_are_the_frames_read_but_the_one_in_hand :
  forall (w : World) (self : ObjectDetection) (v : Video),
    source w (input_file self) = Some v ->
    let r := call w self in
    exists consumed,
      v_reads v = consumed ++ pending (player r) /\
      (List.length (frames_out r) <= List.length (readable consumed))%nat /\
      (raised r = None ->
       Forall2 (annotated self) (readable consumed) (frames_out r) /\
       List.length (frames_out r) = List.length (readable consumed) /\
       readable consumed = readable (v_reads v)) /\
      (forall x, raised r = Some x ->
         (exists pre f,
            consumed = map Some (pre ++ [f]) /\
            Forall2 (annotated self) pre (frames_out r)) /\
         List.length (readable consumed) = S (List.length (frames_out r)) /\
         (exists fps1 tfcc0, report (v_count v) 10 fps1 tfcc0 = inl x)).
Proof.
  intros w self v Hsrc r. subst r.
  destruct (loop w self (v_count v) (v_reads v) (mkLocals 0 (PyInt 0) 0 [] [] 0))
    as [[e l] rest] eqn:L.
  destruct (call_fields w self v e l rest Hsrc L) as (-> & -> & _ & ->).
  pose proof L as L'.
  apply loop_spec in L; [|simpl; lia].
  destruct L as (consumed & new & lines & Hc & Hw & Hs & Hle & Hp & Hn & Hl & Hx).
  simpl in Hw. rewrite Hw.
  exists consumed. split; [exact Hc|]. split; [exact Hle|]. split.
  - intros He. destruct (Hn He) as [Hall Heq].
    repeat split; [exact Hall| |exact Heq].
    symmetry. apply (Forall2_length Hall).
  - intros x He. subst e.
    apply loop_raised in L'.
    destruct L' as (pre & f & new' & Hr & Hw' & Hall).
    simpl in Hw'. rewrite Hw in Hw'. subst new'.
    assert (Hcons : consumed = map Some (pre ++ [f])).
    { rewrite Hc in Hr. apply app_inv_tail in Hr. exact Hr. }
    split; [exists pre, f; split; [exact Hcons|exact Hall]|].
    split; [|exact (Hx x eq_refl)].
    rewrite Hcons, readable_map_Some, length_app, <- (Forall2_length Hall).
    simpl. lia.
Qed.

(** The amended C7 on a stream whose eighth read fails and on the run that
    divides by a frame count of 0. *)
Lemma C7_witness :
  (source Scenario.damaged (input_file (Scenario.job Scenario.damaged))
   = Some (mkVideo 640 480 13 (Scenario.clip 7 ++ None :: Scenario.clip 5)) /\
   raised (call Scenario.damaged (Scenario.job Scenario.damaged)) = None /\
   List.length (frames_out (call Scenario.damaged (Scenario.job Scenario.damaged)))
   = List.length (readable (Scenario.clip 7 ++ None :: Scenario.clip 5))) /\
  (source Scenario.uncounted (input_file (Scenario.job Scenario.uncounted))
   = Some (mkVideo 640 480 0 (Scenario.clip 10)) /\
   raised (call Scenario.uncounted (Scenario.job Scenario.uncounted))
   = Some ZeroDivisionError /\
   exists consumed,
     Scenario.clip 10
     = consumed ++ pending (player (call Scenario.uncounted
                                          (Scenario.job Scenario.uncounted))) /\
     List.length (readable consumed)
     = S (List.length (frames_out (call Scenario.uncounted
                                        (Scenario.job Scenario.uncounted))))).
Proof.
  split.
  - destruct (C7_frames_written_are_the_frames_read_but_the_one_in_hand
                Scenario.damaged (Scenario.job Scenario.damaged) _ eq_refl)
      as (consumed & _ & _ & H & _).
    assert (E : raised (call Scenario.damaged (Scenario.job Scenario.damaged))
                = None) by (vm_compute; reflexivity).
    destruct (H E) as (_ & Hlen & Heq).
    split; [reflexivity|]. split; [exact E|].
    rewrite Hlen, Heq. reflexivity.
  - destruct (C7_frames_written_are_the_frames_read_but_the_one_in_hand
                Scenario.uncounted (Scenario.job Scenario.uncounted) _ eq_refl)
      as (consumed & Hc & _ & _ & H).
    assert (E : raised (call Scenario.uncounted (Scenario.job Scenario.uncounted))
                = Some ZeroDivisionError) by (vm_compute; reflexivity).
    destruct (H _ E) as (_ & Hlen & _).
    split; [reflexivity|]. split; [exact E|].
    exists consumed. split; [exact Hc|exact Hlen].
Defined.

Lemma row_ops_inside (n : nat) (frame : Frame) (row : Row) :
  normalised row ->
  0 <= width frame < 2 ^ 24 -> 0 <= height frame < 2 ^ 24 ->
  Forall (box_inside frame) (row_ops n (width frame) (height frame) row).
Proof.
  intros (H0 & H1 & H2 & H3) Hw Hh. unfold row_ops.
  repeat constructor; cbn [fst snd];
    apply denorm_bounds; assumption.
Qed.

(** C8.  Given one row per label, all with corner coordinates in [0, 1],
    and a frame whose width and height are below 2^24, [plot_boxes]
    completes, keeps the frame's dimensions, and appends for each row its
    three drawing calls, computed from the width and height of the frame
    it is given; both corners of every rectangle drawn, the truncated
    float32 products, lie in [0, width] x [0, height] of that frame. *)
Theorem C8_boxes_lie_within_the_frame :
  forall (labels : list Q) (cord : list Row) (frame : Frame),
    List.length labels = List.length cord ->
    Forall normalised cord ->
    0 <= width frame < 2 ^ 24 -> 0 <= height frame < 2 ^ 24 ->
    exists frame' ops,
      plot_boxes (labels, cord) frame = inr frame' /\
      width frame' = width frame /\ height frame' = height frame /\
      overlay frame' = overlay frame ++ ops /\
      ops = flat_map (row_ops (List.length cord) (width frame) (height frame))
                     cord /\
      Forall (box_inside frame) ops.
Proof.
  intros labels cord frame Hlen Hnorm Hw Hh.
  eexists _, _. split; [apply plot_boxes_spec, Hlen|].
  repeat split.
  clear Hlen. generalize (List.length cord). intros n.
  induction Hnorm as [|row cord Hrow _ IH]; cbn [flat_map]; [constructor|].
  apply Forall_app. split; [|exact IH].
  apply row_ops_inside; assumption.
Qed.

(** C8 on the box with corners at 0.7 and 0.9 of a 640x480 frame: the
    rectangle from (448, 336) to (576, 432). *)
Lemma C8_witness :
  normalised Scenario.corner_box /\
  exists frame',
    plot_boxes ([0%Q], [Scenario.corner_box]) (Scenario.blank 0) = inr frame' /\
    In (Rectangle (448, 336) (576, 432) (0, 0, 255) 3) (overlay frame') /\
    Forall (box_inside (Scenario.blank 0)) (overlay frame').
Proof.
  assert (N : normalised Scenario.corner_box).
  { unfold normalised, Qle; simpl. lia. }
  split; [exact N|].
  destruct (C8_boxes_lie_within_the_frame
              [0%Q] [Scenario.corner_box]
              (Scenario.blank 0) eq_refl
              (Forall_cons _ N (Forall_nil _)))
    as (frame' & ops & Hp & _ & _ & Ho & Hops & Hin);
    [simpl; lia | simpl; lia |].
  exists frame'. split; [exact Hp|].
  rewrite Ho. split; [|exact Hin].
  rewrite Hops. left. vm_compute. reflexivity.
Defined.

(** C9, as stated, fails.  On the hasty clock iteration 3 has a rounded
    elapsed time of 0.0; the 5-frame run ends normally with all 5 frames
    written, and the 20-frame run raises OverflowError, not a division
    error. *)
Lemma C9_counterexample :
  Scenario.hasty 3 = Np.pzero /\
  (let r := call Scenario.hasty5 (Scenario.job Scenario.hasty5) in
   raised r = None /\ List.length (frames_out r) = 5%nat) /\
  (let r := call Scenario.hasty20 (Scenario.job Scenario.hasty20) in
   raised r = Some OverflowError).
Proof.
  vm_compute. repeat split.
Qed.

(** C9, amended.  The division of 1 by the rounded elapsed time is not
    guarded, and on 0.0 it yields +infinity without raising.  With no
    negative clock reading in the first window and a reading of 0.0 in
    it: a stream that delivers fewer than 10 frames is processed to its
    end without an exception; a stream that delivers 10 frames makes the
    run raise OverflowError at the tenth, when the average is converted
    to an int, with 9 frames written and nothing printed. *)
Theorem C9_zero_elapsed_time_overflows_at_the_report :
  forall (w : World) (self : ObjectDetection) (v : Video) (j : nat),
    source w (input_file self) = Some v ->
    (forall i, (i < 10)%nat -> Np.nonneg (elapsed w i) = true) ->
    (j < 10)%nat ->
    elapsed w j = Np.pzero ->
    let r := call w self in
    Np.div (Np.of_int 1) (elapsed w j) = Np.pinf /\
    ((List.length (readable (v_reads v)) < 10)%nat -> raised r = None) /\
    (forall fs rest,
       v_reads v = map Some fs ++ rest -> List.length fs = 10%nat ->
       raised r = Some OverflowError /\
       printed r = [] /\
       List.length (frames_out r) = 9%nat).
Proof.
  intros w self v j Hsrc Hclock Hj Hz r. subst r.
  split; [rewrite Hz; apply reciprocal_zero|].
  split.
  - intros Hshort.
    destruct (loop w self (v_count v) (v_reads v) (mkLocals 0 (PyInt 0) 0 [] [] 0))
      as [[e l] rest'] eqn:L.
    destruct (call_fields w self v e l rest' Hsrc L) as (-> & _).
    pose proof (loop_short w self (v_count v) (v_reads v)
                  (mkLocals 0 (PyInt 0) 0 [] [] 0)) as H.
    rewrite L in H. apply H; simpl; lia.
  - intros fs rest Hreads Hlen.
    assert (Hinf : accumulate w (Np.of_int 0) 0 10 = Np.pinf).
    { apply (accumulate_zero_elapsed w 10 _ 0%nat j); try assumption;
        try reflexivity; try lia.
      intros n Hn. apply Hclock. lia. }
    destruct (first_report_raises w self (v_count v) fs rest OverflowError Hlen)
      as (l & L & Hw & Hs).
    { rewrite Hinf. apply report_overflow. }
    rewrite <- Hreads in L.
    destruct (call_fields w self v _ _ _ Hsrc L) as (-> & -> & -> & _).
    repeat split; assumption.
Qed.

(** The amended C9 on 20 frames, the fourth iteration taking no time. *)
Lemma C9_witness :
  source Scenario.hasty20 (input_file (Scenario.job Scenario.hasty20))
  = Some (mkVideo 640 480 20 (Scenario.clip 20)) /\
  elapsed Scenario.hasty20 3 = Np.pzero /\
  raised (call Scenario.hasty20 (Scenario.job Scenario.hasty20))
  = Some OverflowError /\
  List.length (frames_out (call Scenario.hasty20 (Scenario.job Scenario.hasty20)))
  = 9%nat.
Proof.
  assert (Hclock : forall i, (i < 10)%nat ->
                             Np.nonneg (elapsed Scenario.hasty20 i) = true).
  { intros i Hi. do 10 (destruct i as [|i]; [reflexivity|]). lia. }
  destruct (C9_zero_elapsed_time_overflows_at_the_report
              Scenario.hasty20 (Scenario.job Scenario.hasty20) _ 3%nat
              eq_refl Hclock ltac:(lia) eq_refl) as (_ & _ & H).
  destruct (H (readable (Scenario.clip 10))
              (skipn 10 (Scenario.clip 20)) eq_refl eq_refl)
    as (Hr & _ & Hn).
  repeat split; assumption.
Defined.

Lemma report_zero_count_raises fc1 fps1 tfcc0 :
  report 0 fc1 fps1 tfcc0
  = inl match Np.to_int (Np.div fps1 (Np.of_int 10)) with
        | inr _ => ZeroDivisionError
        | inl x => x
        end.
Proof.
  unfold report.
  destruct (Np.to_int (Np.div fps1 (Np.of_int 10))); reflexivity.
Qed.

(** C10, as stated, fails: with a reported frame count of 0 and an
    iteration of the first window that takes no time, the run raises
    OverflowError, from [int(fps / 10)], and not a division error. *)
Lemma C10_counterexample :
  let r := call Scenario.uncounted_hasty (Scenario.job Scenario.uncounted_hasty) in
  source Scenario.uncounted_hasty
         (input_file (Scenario.job Scenario.uncounted_hasty))
  = Some (mkVideo 640 480 0 (Scenario.clip 10)) /\
  raised r = Some OverflowError /\
  raised r <> Some ZeroDivisionError.
Proof.
  vm_compute. repeat split. discriminate.
Qed.

(** C10, amended.  The percentage divides by the reported frame count
    without a guard.  When that count is 0 and the stream delivers 10
    frames, the run is ended by an exception at the tenth frame, with 9
    frames written and nothing printed: ZeroDivisionError when the
    conversion [int(fps / 10)], evaluated just before, succeeds, and
    otherwise the exception of that conversion. *)
Theorem C10_zero_frame_count_aborts_the_first_report :
  forall (w : World) (self : ObjectDetection) (v : Video)
         (fs : list Frame) (rest : list (option Frame)),
    source w (input_file self) = Some v ->
    v_count v = 0 ->
    v_reads v = map Some fs ++ rest ->
    List.length fs = 10%nat ->
    let r := call w self in
    raised r
    = Some match Np.to_int (Np.div (accumulate w (Np.of_int 0) 0 10)
                                   (Np.of_int 10)) with
           | inr _ => ZeroDivisionError
           | inl x => x
           end /\
    printed r = [] /\
    List.length (frames_out r) = 9%nat.
Proof.
  intros w self v fs rest Hsrc Hcount Hreads Hlen r. subst r.
  destruct (first_report_raises w self (v_count v) fs rest _ Hlen
              (eq_trans (f_equal (fun c => report c 10 _ 0) Hcount)
                        (report_zero_count_raises 10 _ 0)))
    as (l & L & Hw & Hs).
  rewrite <- Hreads in L.
  destruct (call_fields w self v _ _ _ Hsrc L) as (-> & -> & -> & _).
  repeat split; assumption.
Qed.

(** The amended C10 on 10 frames at a steady 10 ms each. *)
Lemma C10_witness :
  source Scenario.uncounted (input_file (Scenario.job Scenario.uncounted))
  = Some (mkVideo 640 480 0 (Scenario.clip 10)) /\
  Np.to_int (Np.div (accumulate Scenario.uncounted (Np.of_int 0) 0 10)
                    (Np.of_int 10)) = inr 100 /\
  raised (call Scenario.uncounted (Scenario.job Scenario.uncounted))
  = Some ZeroDivisionError.
Proof.
  assert (A : Np.to_int (Np.div (accumulate Scenario.uncounted (Np.of_int 0) 0 10)
                                (Np.of_int 10)) = inr 100)
    by (vm_compute; reflexivity).
  split; [reflexivity|]. split; [exact A|].
  destruct (C10_zero_frame_count_aborts_the_first_report
              Scenario.uncounted (Scenario.job Scenario.uncounted) _
              (readable (Scenario.clip 10)) [] eq_refl eq_refl eq_refl
              eq_refl) as (H & _).
  rewrite A in H. exact H.
Defined.

(** * Further properties of the code *)

(** ** [plot_boxes] and [score_frame] *)

Lemma plot_rows_short cord n x_shape y_shape k :
  forall a frame,
    (List.length cord < a + k)%nat -> (0 < k)%nat ->
    plot_rows cord n x_shape y_shape (seq a k) frame = inl IndexError.
Proof.
  induction k as [|k IH]; intros a frame Hlen Hk; [lia|].
  cbn [seq plot_rows].
  destruct (nth_error cord a) as [row|] eqn:E; [|reflexivity].
  assert (a < List.length cord)%nat
    by (apply nth_error_Some; rewrite E; discriminate).
  apply IH; lia.
Qed.

Lemma plot_boxes_cases labels cord frame :
  plot_boxes (labels, cord) frame =
  if (List.length cord <? List.length labels)%nat
  then inl IndexError
  else inr (mkFrame (height frame) (width frame) (pixels frame)
              (overlay frame ++
               flat_map (row_ops (List.length labels) (width frame)
                                 (height frame))
                        (firstn (List.length labels) cord))).
Proof.
  unfold plot_boxes.
  destruct (Nat.ltb_spec (List.length cord) (List.length labels)) as [H|H].
  - apply plot_rows_short; lia.
  - rewrite plot_rows_spec by lia. reflexivity.
Qed.

Lemma Forall_firstn_keeps {A} (P : A -> Prop) (l : list A) :
  Forall P l -> forall n, Forall P (firstn n l).
Proof.
  induction 1 as [|x l Hx _ IH]; intros [|n]; simpl; constructor; auto.
Qed.



Lemma length_row_ops n x_shape y_shape rows :
  List.length (flat_map (row_ops n x_shape y_shape) rows)
  = (3 * List.length rows)%nat.
Proof.
  induction rows as [|row rows IH]; [reflexivity|].
  cbn [flat_map]. rewrite length_app, IH. cbn [row_ops List.length]. lia.
Qed.

(** X2.  On the results of [score_frame] for a frame, [plot_boxes] on that
    frame never raises: the frame comes back with its height, width and
    pixels, with everything drawn before still there, and with three more
    drawing calls for each row the model returned. *)
Theorem X2_scored_frame_is_always_drawn :
  forall (self : ObjectDetection) (frame : Frame),
    exists frame' ops,
      plot_boxes (score_frame self frame) frame = inr frame' /\
      height frame' = height frame /\ width frame' = width frame /\
      pixels frame' = pixels frame /\
      overlay frame' = overlay frame ++ ops /\
      List.length ops = (3 * List.length (forward (model self) frame))%nat.
Proof.
  intros self frame. unfold score_frame. eexists _, _.
  split; [apply plot_boxes_spec; rewrite !length_map; reflexivity|].
  repeat split. rewrite length_row_ops, !length_map. reflexivity.
Qed.

(** X3.  Denormalisation keeps the orientation of a box: when every row
    has its first corner left of and above its second (or equal), so has
    every rectangle [plot_boxes] draws, whatever the coordinates are. *)
Theorem X3_boxes_keep_their_orientation :
  forall (labels : list Q) (cord : list Row) (frame frame' : Frame),
    Forall ordered cord ->
    0 <= width frame -> 0 <= height frame ->
    Forall box_ordered (overlay frame) ->
    plot_boxes (labels, cord) frame = inr frame' ->
    Forall box_ordered (overlay frame').
Proof.
  intros labels cord frame frame' Hord Hw Hh Hold H.
  rewrite plot_boxes_cases in H.
  destruct (List.length cord <? List.length labels)%nat; [discriminate|].
  inversion H; subst; clear H. cbn [overlay].
  apply Forall_app. split; [exact Hold|].
  generalize (List.length labels) at 1. intros n.
  assert (Hfirst : Forall ordered (firstn (List.length labels) cord))
    by (apply Forall_firstn_keeps; exact Hord).
  induction Hfirst as [|row rows [H0 H1] _ IH]; cbn [flat_map]; [constructor|].
  apply Forall_app. split; [|exact IH].
  unfold row_ops. repeat constructor; simpl.
  - apply denorm_le; assumption.
  - apply denorm_le; assumption.
Qed.

(** X3 on a box covering the middle of a 640x480 frame. *)
Lemma X3_witness :
  ordered (mkRow (1 # 4) (1 # 4) (3 # 4) (3 # 4) (9 # 10)) /\
  exists frame',
    plot_boxes ([0%Q], [mkRow (1 # 4) (1 # 4) (3 # 4) (3 # 4) (9 # 10)])
               (Scenario.blank 0) = inr frame' /\
    Forall box_ordered (overlay frame').
Proof.
  assert (O : ordered (mkRow (1 # 4) (1 # 4) (3 # 4) (3 # 4) (9 # 10))).
  { unfold ordered, Qle; simpl. lia. }
  split; [exact O|].
  eexists. split; [reflexivity|].
  apply (X3_boxes_keep_their_orientation
           [0%Q] [mkRow (1 # 4) (1 # 4) (3 # 4) (3 # 4) (9 # 10)]
           (Scenario.blank 0) _ (Forall_cons _ O (Forall_nil _)));
    [simpl; lia | simpl; lia | constructor | reflexivity].
Defined.



(** ** Exceptions of a run *)

Lemma to_int_raises y x :
  Np.to_int y = inl x -> x = OverflowError \/ x = ValueError.
Proof.
  destruct y; simpl; intros H; inversion H; auto.
Qed.

Lemma report_raises tfc fc1 fps1 tfcc0 x :
  report tfc fc1 fps1 tfcc0 = inl x ->
  x = OverflowError \/ x = ValueError \/ (x = ZeroDivisionError /\ tfc = 0).
Proof.
  unfold report. intros H.
  destruct (Np.to_int (Np.div fps1 (Np.of_int 10))) as [e|fps2] eqn:E1.
  - inversion H; subst. destruct (to_int_raises _ _ E1); auto.
  - cbv zeta in H. unfold Np.int_truediv in H.
    destruct (tfc =? 0) eqn:E0.
    + inversion H; subst. apply Z.eqb_eq in E0. auto.
    + destruct (Np.to_int (Np.mul _ (Np.of_int 100))) as [e|pct] eqn:E2;
        [|discriminate].
      inversion H; subst. destruct (to_int_raises _ _ E2); auto.
Qed.

(** Whether the input stream is released. *)
Lemma call_released w self v e l rest :
  source w (input_file self) = Some v ->
  loop w self (v_count v) (v_reads v) (mkLocals 0 (PyInt 0) 0 [] [] 0)
  = (e, l, rest) ->
  cap_released (player (call w self))
  = match e with None => true | Some _ => false end.
Proof.
  intros Hsrc L. rewrite (call_opened w self v Hsrc), L.
  destruct e; reflexivity.
Qed.

(** X5.  The exceptions a run can end with.  AssertionError means the
    input could not be opened; on an opened input the only exceptions are
    those of the progress report: OverflowError or ValueError from a
    conversion to int, and ZeroDivisionError, which requires a reported
    frame count of 0.  In particular no run raises IndexError, and a
    source that reports a frame count other than 0 never causes a
    division by zero. *)
Theorem X5_exceptions_of_a_run :
  forall (w : World) (self : ObjectDetection) (x : exn),
    raised (call w self) = Some x ->
    (x = AssertionError /\ source w (input_file self) = None) \/
    (exists v,
       source w (input_file self) = Some v /\
       (x = OverflowError \/ x = ValueError \/
        (x = ZeroDivisionError /\ v_count v = 0))).
Proof.
  intros w self x H.
  destruct (source w (input_file self)) as [v|] eqn:Hsrc.
  - right. exists v. split; [reflexivity|].
    destruct (loop w self (v_count v) (v_reads v) (mkLocals 0 (PyInt 0) 0 [] [] 0))
      as [[e l] rest] eqn:L.
    destruct (call_fields w self v e l rest Hsrc L) as (He & _).
    rewrite He in H. subst e.
    apply loop_spec in L; [|simpl; lia].
    destruct L as (_ & _ & _ & _ & _ & _ & _ & _ & _ & _ & Hx).
    destruct (Hx x eq_refl) as (fps1 & tfcc0 & R).
    apply (report_raises _ _ _ _ _ R).
  - left. rewrite (call_unopened w self Hsrc) in H.
    inversion H. split; reflexivity.
Qed.

(** X5 on the run that divides by a frame count of 0. *)
Lemma X5_witness :
  raised (call Scenario.uncounted (Scenario.job Scenario.uncounted))
  = Some ZeroDivisionError /\
  exists v,
    source Scenario.uncounted (input_file (Scenario.job Scenario.uncounted))
    = Some v /\ v_count v = 0.
Proof.
  assert (E : raised (call Scenario.uncounted (Scenario.job Scenario.uncounted))
              = Some ZeroDivisionError) by (vm_compute; reflexivity).
  split; [exact E|].
  destruct (X5_exceptions_of_a_run _ _ _ E) as [[H _]|(v & Hv & H)].
  - discriminate H.
  - exists v. split; [exact Hv|].
    destruct H as [H|[H|[_ H]]]; [discriminate H|discriminate H|exact H].
Defined.

(** X6.  A stream that delivers fewer than 10 frames is always processed
    to its end, whatever the clock readings and the reported frame count:
    no exception, every frame read is written annotated, nothing is
    printed, and the input stream is released. *)
Theorem X6_short_streams_end_normally :
  forall (w : World) (self : ObjectDetection) (v : Video),
    source w (input_file self) = Some v ->
    (List.length (readable (v_reads v)) < 10)%nat ->
    let r := call w self in
    raised r = None /\
    Forall2 (annotated self) (readable (v_reads v)) (frames_out r) /\
    printed r = [] /\
    cap_released (player r) = true.
Proof.
  intros w self v Hsrc Hshort r. subst r.
  destruct (loop w self (v_count v) (v_reads v) (mkLocals 0 (PyInt 0) 0 [] [] 0))
    as [[e l] rest] eqn:L.
  destruct (call_fields w self v e l rest Hsrc L) as (-> & -> & -> & _).
  rewrite (call_released w self v e l rest Hsrc L).
  pose proof (loop_short w self (v_count v) (v_reads v)
                (mkLocals 0 (PyInt 0) 0 [] [] 0)) as He.
  rewrite L in He. simpl in He. specialize (He ltac:(lia) ltac:(lia)).
  subst e.
  apply loop_spec in L; [|simpl; lia].
  destruct L as (consumed & new & lines & Hc & Hw & Hs & Hle & Hp & Hn & Hl & Hx).
  simpl in Hw, Hs, Hl. destruct (Hn eq_refl) as [Hall Heq].
  rewrite Hw, Hs, <- Heq.
  repeat split; [exact Hall|].
  pose proof (Forall2_length Hall) as Hlen.
  assert (H0 : Z.of_nat (List.length lines) = 0)
    by (rewrite Hl; apply Z.div_small; rewrite <- Heq in Hshort; lia).
  destruct lines; [reflexivity|discriminate].
Qed.

(** X6 on 5 frames with an iteration that takes no time. *)
Lemma X6_witness :
  source Scenario.hasty5 (input_file (Scenario.job Scenario.hasty5))
  = Some (mkVideo 640 480 5 (Scenario.clip 5)) /\
  (List.length (readable (Scenario.clip 5)) < 10)%nat /\
  raised (call Scenario.hasty5 (Scenario.job Scenario.hasty5)) = None.
Proof.
  assert (S5 : (List.length (readable (Scenario.clip 5)) < 10)%nat)
    by (vm_compute; lia).
  split; [reflexivity|]. split; [exact S5|].
  apply (X6_short_streams_end_normally
           Scenario.hasty5 (Scenario.job Scenario.hasty5) _ eq_refl S5).
Defined.

(** ** The progress lines *)

(** What a report that raises nothing returns. *)
Lemma report_returns tfc fc1 fps1 tfcc0 fps2 tfcc1 fc2 line :
  report tfc fc1 fps1 tfcc0 = inr (fps2, tfcc1, fc2, line) ->
  exists ratio per_com,
    Np.to_int (Np.div fps1 (Np.of_int 10)) = inr fps2 /\
    tfcc1 = tfcc0 + fc1 /\ fc2 = 0 /\
    Np.int_truediv (tfcc0 + fc1) tfc = inr ratio /\
    Np.to_int (Np.mul ratio (Np.of_int 100)) = inr per_com /\
    line = progress_line fps2 per_com.
Proof.
  unfold report. intros H.
  destruct (Np.to_int (Np.div fps1 (Np.of_int 10))) as [e|a] eqn:E1;
    [discriminate|].
  cbv zeta in H.
  destruct (Np.int_truediv (tfcc0 + fc1) tfc) as [e|ratio] eqn:E2;
    [discriminate|].
  destruct (Np.to_int (Np.mul ratio (Np.of_int 100))) as [e|pct] eqn:E3;
    [discriminate|].
  inversion H; subst. exists ratio, pct. repeat split; assumption.
Qed.

Lemma of_int_nonneg z : 0 <= z -> Np.nonneg (Np.of_int z) = true.
Proof.
  intros Hz. unfold Np.of_int, binary_normalize.
  destruct z as [|p|p]; [reflexivity| |lia].
  unfold binary_round. destruct (shl_align _ _ _) as [mz ez].
  apply binary_round_aux_nonneg. lia.
Qed.

Lemma to_int_nonneg y z :
  Np.nonneg y = true -> Np.to_int y = inr z -> 0 <= z.
Proof.
  destruct y as [s|s| |s m e]; simpl; intros Hy H; inversion H; subst;
    try lia.
  destruct s; [discriminate|]. simpl. apply Z.shiftl_nonneg. lia.
Qed.

Lemma tenth_nonneg x :
  Np.nonneg x = true -> Np.nonneg (Np.div x (Np.of_int 10)) = true.
Proof.
  change (Np.of_int 10) with (S754_finite false 5629499534213120 (-49)).
  destruct x as [s|s| |s m e]; simpl; intros H; try discriminate;
    try (destruct s; [discriminate|reflexivity]).
  destruct s; [discriminate|]. unfold Np.div, SFdiv.
  destruct (SFdiv_core_binary _ _ _ _ _ _) as [[mz ez] lz] eqn:E.
  apply binary_round_aux_nonneg.
  unfold SFdiv_core_binary in E.
  match type of E with
  | (let '(q, r) := Z.div_eucl ?a ?b in _) = _ =>
    assert (Ha : 0 <= a);
      [| pose proof (Z.div_pos a b Ha ltac:(lia)) as Hq;
         unfold Z.div in Hq; destruct (Z.div_eucl a b) as [q r] ]
  end.
  - match goal with
    | |- 0 <= match ?s with _ => _ end => destruct s eqn:Es
    end; try lia.
    apply Z.shiftl_nonneg. lia.
  - inversion E; subst. exact Hq.
Qed.

Section Lines.

Variables (w : World) (self : ObjectDetection) (tfc : Z).

(** The lines printed by the loop: the [i]-th of them (from 0) shows the
    percentage of [tfcc + 10 * (i + 1)] frames out of [tfc]. *)
Lemma loop_lines reads :
  forall l e l' rest,
    loop w self tfc reads l = (e, l', rest) ->
    exists lines,
      stdout l' = stdout l ++ lines /\
      forall i line,
        nth_error lines i = Some line ->
        exists fps2 ratio per_com,
          line = progress_line fps2 per_com /\
          Np.int_truediv (tfcc l + 10 * (Z.of_nat i + 1)) tfc = inr ratio /\
          Np.to_int (Np.mul ratio (Np.of_int 100)) = inr per_com.
Proof.
  induction reads as [|[f|] reads IH]; intros l e l' rest H.
  - rewrite loop_nil in H. inversion H; subst; clear H.
    exists []. simpl. rewrite app_nil_r. split; [reflexivity|].
    intros [|i] line Hi; discriminate.
  - destruct (plot_boxes_scored self f) as [f' Hf'].
    rewrite (loop_frame w self tfc f f' reads l Hf') in H. cbv zeta in H.
    destruct (fc l + 1 =? 10) eqn:E.
    + apply Z.eqb_eq in E. rewrite E in H.
      destruct (report tfc 10 _ (tfcc l))
        as [x|[[[fps2 tfcc1] fc2] line]] eqn:R.
      * inversion H; subst; clear H.
        exists []. simpl. rewrite app_nil_r. split; [reflexivity|].
        intros [|i] line Hi; discriminate.
      * destruct (report_returns _ _ _ _ _ _ _ _ R)
          as (ratio & pct & _ & Ht & _ & Hratio & Hpct & Hline).
        apply IH in H. destruct H as (lines & Hs & Hall).
        cbn [stdout tfcc] in Hs, Hall.
        exists (line :: lines). rewrite Hs, <- app_assoc.
        split; [reflexivity|].
        intros [|i] ln Hi.
        -- inversion Hi; subst ln. exists fps2, ratio, pct.
           repeat split; assumption.
        -- destruct (Hall i ln Hi) as (a & b & c & H1 & H2 & H3).
           exists a, b, c. repeat split; try assumption.
           rewrite <- H2. f_equal. lia.
    + apply IH in H. destruct H as (lines & Hs & Hall).
      cbn [stdout tfcc] in Hs, Hall. exists lines. split; assumption.
  - rewrite loop_failed_read in H. inversion H; subst; clear H.
    exists []. simpl. rewrite app_nil_r. split; [reflexivity|].
    intros [|i] line Hi; discriminate.
Qed.

(** With no negative clock reading the accumulator is never negative, and
    neither is any average printed. *)
Lemma loop_averages reads :
  (forall i, Np.nonneg (elapsed w i) = true) ->
  forall l e l' rest,
    loop w self tfc reads l = (e, l', rest) ->
    Np.nonneg (as_float (fps l)) = true ->
    exists lines,
      stdout l' = stdout l ++ lines /\
      Forall (fun line => exists fps2 per_com,
                line = progress_line fps2 per_com /\ 0 <= fps2) lines.
Proof.
  intros Hclock.
  induction reads as [|[f|] reads IH]; intros l e l' rest H Hacc.
  - rewrite loop_nil in H. inversion H; subst; clear H.
    exists []. simpl. rewrite app_nil_r. split; constructor.
  - destruct (plot_boxes_scored self f) as [f' Hf'].
    rewrite (loop_frame w self tfc f f' reads l Hf') in H. cbv zeta in H.
    assert (Hsum : Np.nonneg (Np.add (as_float (fps l))
                                     (Np.div (Np.of_int 1)
                                             (elapsed w (iteration l))))
                   = true)
      by (apply add_nonneg; [exact Hacc|apply reciprocal_nonneg, Hclock]).
    remember (Np.add (as_float (fps l))
                     (Np.div (Np.of_int 1) (elapsed w (iteration l))))
      as fps1 eqn:Hfps1. clear Hfps1.
    destruct (fc l + 1 =? 10) eqn:E.
    + destruct (report tfc (fc l + 1) fps1 (tfcc l))
        as [x|[[[fps2 tfcc1] fc2] line]] eqn:R.
      * inversion H; subst; clear H.
        exists []. simpl. rewrite app_nil_r. split; constructor.
      * destruct (report_returns _ _ _ _ _ _ _ _ R)
          as (ratio & pct & Havg & _ & _ & _ & _ & Hline).
        pose proof (to_int_nonneg _ _ (tenth_nonneg _ Hsum) Havg) as Hpos.
        apply IH in H; [|cbn [fps as_float]; apply of_int_nonneg, Hpos].
        destruct H as (lines & Hs & Hall). cbn [stdout] in Hs.
        exists (line :: lines). rewrite Hs, <- app_assoc.
        split; [reflexivity|]. constructor; [|exact Hall].
        exists fps2, pct. split; assumption.
    + apply IH in H; [|exact Hsum].
      destruct H as (lines & Hs & Hall). cbn [stdout] in Hs.
      exists lines. split; assumption.
  - rewrite loop_failed_read in H. inversion H; subst; clear H.
    exists []. simpl. rewrite app_nil_r. split; constructor.
Qed.

End Lines.

(** X7.  The percentage on the [i]-th progress line (counting from 0) is
    [int(10 * (i + 1) / tfc * 100)] for the reported frame count [tfc]: it
    depends on the position of the line and on the reported count only,
    the frame just processed being counted in. *)
Theorem X7_percentage_of_each_line :
  forall (w : World) (self : ObjectDetection) (v : Video) (i : nat)
         (line : string),
    source w (input_file self) = Some v ->
    nth_error (printed (call w self)) i = Some line ->
    exists fps2 ratio per_com,
      line = progress_line fps2 per_com /\
      Np.int_truediv (10 * (Z.of_nat i + 1)) (v_count v) = inr ratio /\
      Np.to_int (Np.mul ratio (Np.of_int 100)) = inr per_com.
Proof.
  intros w self v i line Hsrc Hi.
  destruct (loop w self (v_count v) (v_reads v) (mkLocals 0 (PyInt 0) 0 [] [] 0))
    as [[e l] rest] eqn:L.
  destruct (call_fields w self v e l rest Hsrc L) as (_ & _ & Hp & _).
  rewrite Hp in Hi.
  apply loop_lines in L. destruct L as (lines & Hs & Hall).
  simpl in Hs, Hall. rewrite Hs in Hi. exact (Hall i line Hi).
Qed.

(** X7 on the second line of a 20-frame run. *)
Lemma X7_witness :
  nth_error (printed (call Scenario.quiet20 (Scenario.job Scenario.quiet20))) 1
  = Some "Frames Per Second : 110 || Percentage Parsed : 100" /\
  exists fps2 ratio per_com,
    "Frames Per Second : 110 || Percentage Parsed : 100"
    = progress_line fps2 per_com /\
    Np.int_truediv 20 20 = inr ratio /\
    Np.to_int (Np.mul ratio (Np.of_int 100)) = inr per_com.
Proof.
  assert (E : nth_error
                (printed (call Scenario.quiet20 (Scenario.job Scenario.quiet20)))
                1
              = Some "Frames Per Second : 110 || Percentage Parsed : 100")
    by (vm_compute; reflexivity).
  split; [exact E|].
  exact (X7_percentage_of_each_line
           Scenario.quiet20 (Scenario.job Scenario.quiet20) _ 1%nat _
           eq_refl E).
Defined.

Lemma report_succeeds tfc fc1 fps1 tfcc0 average ratio per_com :
  Np.to_int (Np.div fps1 (Np.of_int 10)) = inr average ->
  Np.int_truediv (tfcc0 + fc1) tfc = inr ratio ->
  Np.to_int (Np.mul ratio (Np.of_int 100)) = inr per_com ->
  report tfc fc1 fps1 tfcc0
  = inr (average, tfcc0 + fc1, 0, progress_line average per_com).
Proof.
  intros H1 H2 H3. unfold report. rewrite H1. cbv zeta. rewrite H2, H3.
  reflexivity.
Qed.

(** X8.  When the stream delivers 10 frames and the first report raises
    nothing, the first line printed shows the mean, rounded down, of the
    reciprocals of the ten rounded elapsed times of iterations 0 to 9,
    and the percentage of 10 frames out of the reported count. *)
Theorem X8_first_line_is_the_mean_of_ten_rates :
  forall (w : World) (self : ObjectDetection) (v : Video)
         (fs : list Frame) (rest : list (option Frame))
         (average : Z) (ratio : Np.float64) (per_com : Z),
    source w (input_file self) = Some v ->
    v_reads v = map Some fs ++ rest ->
    List.length fs = 10%nat ->
    Np.to_int (Np.div (accumulate w (Np.of_int 0) 0 10) (Np.of_int 10))
    = inr average ->
    Np.int_truediv 10 (v_count v) = inr ratio ->
    Np.to_int (Np.mul ratio (Np.of_int 100)) = inr per_com ->
    exists more,
      printed (call w self) = progress_line average per_com :: more.
Proof.
  intros w self v fs rest average ratio per_com Hsrc Hreads Hlen Ha Hr Hp.
  destruct (loop w self (v_count v) (v_reads v) (mkLocals 0 (PyInt 0) 0 [] [] 0))
    as [[e l] rest'] eqn:L.
  destruct (call_fields w self v e l rest' Hsrc L) as (_ & _ & -> & _).
  rewrite Hreads in L.
  destruct (loop_first_report w self (v_count v) fs rest Hlen)
    as (nine & tenth & _ & Hloop).
  rewrite Hloop in L.
  rewrite (report_succeeds (v_count v) 10 _ 0 average ratio per_com Ha Hr Hp)
    in L.
  apply loop_lines in L. destruct L as (lines & Hs & _).
  cbn [stdout] in Hs. exists lines. exact Hs.
Qed.

(** X8 on 20 frames at a steady 10 ms. *)
Lemma X8_witness :
  Np.to_int (Np.div (accumulate Scenario.quiet20 (Np.of_int 0) 0 10)
                    (Np.of_int 10)) = inr 100 /\
  exists more,
    printed (call Scenario.quiet20 (Scenario.job Scenario.quiet20))
    = progress_line 100 50 :: more.
Proof.
  assert (A : Np.to_int (Np.div (accumulate Scenario.quiet20 (Np.of_int 0) 0 10)
                                (Np.of_int 10)) = inr 100)
    by (vm_compute; reflexivity).
  assert (R : Np.int_truediv 10 20 = inr (Np.div (Np.of_int 10) (Np.of_int 20)))
    by (vm_compute; reflexivity).
  assert (P : Np.to_int (Np.mul (Np.div (Np.of_int 10) (Np.of_int 20))
                                (Np.of_int 100)) = inr 50)
    by (vm_compute; reflexivity).
  split; [exact A|].
  exact (X8_first_line_is_the_mean_of_ten_rates
           Scenario.quiet20 (Scenario.job Scenario.quiet20) _
           (readable (Scenario.clip 10)) (skipn 10 (Scenario.clip 20))
           100 _ 50 eq_refl eq_refl eq_refl A R P).
Defined.

(** X9.  When no rounded elapsed time is negative or NaN, no progress line
    shows a negative rate, in any window of any run. *)
Theorem X9_no_negative_rate_is_printed :
  forall (w : World) (self : ObjectDetection),
    (forall i, Np.nonneg (elapsed w i) = true) ->
    Forall (fun line => exists fps2 per_com,
              line = progress_line fps2 per_com /\ 0 <= fps2)
           (printed (call w self)).
Proof.
  intros w self Hclock.
  destruct (source w (input_file self)) as [v|] eqn:Hsrc.
  - destruct (loop w self (v_count v) (v_reads v) (mkLocals 0 (PyInt 0) 0 [] [] 0))
      as [[e l] rest] eqn:L.
    destruct (call_fields w self v e l rest Hsrc L) as (_ & _ & -> & _).
    apply (loop_averages w self (v_count v) (v_reads v) Hclock) in L;
      [|reflexivity].
    destruct L as (lines & Hs & Hall). simpl in Hs. rewrite Hs. exact Hall.
  - rewrite (call_unopened w self Hsrc). constructor.
Qed.

(** X9 on 20 frames at a steady 10 ms. *)
Lemma X9_witness :
  (forall i, Np.nonneg (elapsed Scenario.quiet20 i) = true) /\
  Forall (fun line => exists fps2 per_com,
            line = progress_line fps2 per_com /\ 0 <= fps2)
         (printed (call Scenario.quiet20 (Scenario.job Scenario.quiet20))).
Proof.
  assert (H : forall i, Np.nonneg (elapsed Scenario.quiet20 i) = true)
    by (intros i; reflexivity).
  split; [exact H|].
  exact (X9_no_negative_rate_is_printed
           Scenario.quiet20 (Scenario.job Scenario.quiet20) H).
Defined.

(** ** The driver and the writer *)

(** X10.  The driver cell in closed form: with fewer than two arguments
    after the program name it raises IndexError before the model is loaded
    or any stream opened; otherwise it runs the annotator on the two paths
    written in the cell. *)
Theorem X10_driver_needs_two_arguments :
  forall (w : World) (argv : list string),
    driver w argv =
    if (List.length argv <? 3)%nat
    then inl IndexError
    else inr (init w driver_input driver_output,
              call w (init w driver_input driver_output)).
Proof.
  intros w argv. unfold driver.
  destruct argv as [|prog [|link [|output_file more]]]; reflexivity.
Qed.

(** X11.  The writer exists exactly when the input opened, and it is then
    created for the object's output path, with the MJPG codec, 20 frames
    per second and the width and height that the input reports, whether
    the loop ends normally or by an exception. *)
Theorem X11_writer_follows_the_input :
  forall (w : World) (self : ObjectDetection),
    match source w (input_file self), out (call w self) with
    | Some v, Some wr =>
      w_file wr = out_file self /\ w_fourcc wr = "MJPG" /\ w_rate wr = 20 /\
      w_size wr = (v_width v, v_height v)
    | None, None => True
    | _, _ => False
    end.
Proof.
  intros w self.
  destruct (source w (input_file self)) as [v|] eqn:Hsrc.
  - rewrite (call_opened w self v Hsrc).
    destruct (loop w self (v_count v) (v_reads v) _) as [[[e|] l] rest];
      cbn; repeat split.
  - rewrite (call_unopened w self Hsrc). exact I.
Qed.

(** ** The list files *)

Lemma append_assoc_string (a b c : string) :
  ((a ++ b) ++ c = a ++ (b ++ c))%string.
Proof.
  induction a as [|x a IH]; simpl; [reflexivity|]. rewrite IH. reflexivity.
Qed.

Lemma list_text_lines (p : string) (paths : list string) :
  list_text (p :: paths)
  = String.concat "" (map (fun q => (q ++ newline)%string) (p :: paths)).
Proof.
  unfold list_text. revert p.
  induction paths as [|q paths IH]; intros p; [reflexivity|].
  change (String.concat newline (p :: q :: paths))
    with (p ++ newline ++ String.concat newline (q :: paths))%string.
  change (String.concat "" (map (fun q0 => (q0 ++ newline)%string)
                                (p :: q :: paths)))
    with ((p ++ newline) ++ "" ++
          String.concat "" (map (fun q0 => (q0 ++ newline)%string)
                                (q :: paths)))%string.
  rewrite <- IH. cbn [append]. rewrite !append_assoc_string. reflexivity.
Qed.

(** X12.  Cell 10 leaves two list files and touches no other file.  Each
    holds the paths of its list in order, every path followed by a
    newline; for an empty list it holds a single newline, that is one
    empty line and not an empty file. *)
Theorem X12_list_files_hold_one_line_per_path :
  forall (fs : Files) (train_img_list val_img_list : list string),
    let text paths :=
      match paths with
      | [] => newline
      | _ => String.concat "" (map (fun q => (q ++ newline)%string) paths)
      end in
    let fs' := write_lists fs train_img_list val_img_list in
    fs' train_txt = Some (text train_img_list) /\
    fs' val_txt = Some (text val_img_list) /\
    forall p, p <> train_txt -> p <> val_txt -> fs' p = fs p.
Proof.
  intros fs train val text fs'. subst fs'. unfold write_lists, write_text.
  assert (Ht : forall paths, list_text paths = text paths).
  { intros [|p paths]; [reflexivity|apply list_text_lines]. }
  split; [|split].
  - change (train_txt =? val_txt)%string with false.
    rewrite String.eqb_refl, Ht. reflexivity.
  - rewrite String.eqb_refl, Ht. reflexivity.
  - intros p H1 H2.
    apply String.eqb_neq in H1, H2. rewrite H1, H2. reflexivity.
Qed.

(** X12 on two paths for training and none for validation. *)
Lemma X12_witness :
  write_lists (fun _ => None) ["a.jpg"; "b.jpg"] [] train_txt
  = Some (String.concat "" ["a.jpg"; newline; "b.jpg"; newline]) /\
  write_lists (fun _ => None) ["a.jpg"; "b.jpg"] [] val_txt = Some newline /\
  write_lists (fun _ => None) ["a.jpg"; "b.jpg"] [] "data.yaml" = None.
Proof.
  destruct (X12_list_files_hold_one_line_per_path
              (fun _ => None) ["a.jpg"; "b.jpg"] []) as (H1 & H2 & H3).
  split; [exact H1|]. split; [exact H2|].
  apply H3; discriminate.
Defined.

(** ** Where an exception strikes *)

Section Abort.

Variables (w : World) (self : ObjectDetection) (tfc : Z).

(** An exception leaves the loop at a tenth frame, which is not written. *)
Lemma loop_abort reads :
  forall l x l' rest,
    loop w self tfc reads l = (Some x, l', rest) ->
    0 <= fc l < 10 ->
    Z.of_nat (List.length (written l))
    = 10 * Z.of_nat (List.length (stdout l)) + fc l ->
    Z.of_nat (List.length (written l'))
    = 10 * Z.of_nat (List.length (stdout l')) + 9.
Proof.
  induction reads as [|[f|] reads IH]; intros l x l' rest H Hfc Hinv.
  - rewrite loop_nil in H. discriminate.
  - destruct (plot_boxes_scored self f) as [f' Hf'].
    rewrite (loop_frame w self tfc f f' reads l Hf') in H. cbv zeta in H.
    destruct (fc l + 1 =? 10) eqn:E.
    + apply Z.eqb_eq in E.
      destruct (report tfc (fc l + 1) _ (tfcc l))
        as [y|[[[fps2 tfcc1] fc2] line]] eqn:R.
      * inversion H; subst; clear H. cbn [written stdout]. lia.
      * pose proof (report_resets_fc _ _ _ _ _ _ _ _ R) as ->.
        apply IH in H; [exact H|simpl; lia|].
        cbn [written stdout fc]. rewrite !length_app. simpl List.length. lia.
    + apply Z.eqb_neq in E.
      apply IH in H; [exact H|simpl; lia|].
      cbn [written stdout fc]. rewrite !length_app. simpl List.length. lia.
  - rewrite loop_failed_read in H. discriminate.
Qed.

Variable j : nat.
Hypothesis clock : forall i, Np.nonneg (elapsed w i) = true.
Hypothesis hasty : elapsed w j = Np.pzero.

(** Iteration [j] takes no time.  From a state that has not reached it,
    or has passed it within its window with an infinite accumulator, a
    stream that reaches the end of that window makes the loop raise. *)
Lemma loop_poisoned reads :
  forall l q,
    0 <= fc l < 10 ->
    Z.of_nat (iteration l) = 10 * q + fc l ->
    ((iteration l <= j)%nat /\ Np.nonneg (as_float (fps l)) = true) \/
    ((j < iteration l)%nat /\ q = Z.of_nat (j / 10) /\
     as_float (fps l) = Np.pinf) ->
    (10 * (j / 10 + 1) <= iteration l + List.length (readable reads))%nat ->
    exists x, fst (fst (loop w self tfc reads l)) = Some x.
Proof.
  pose proof (Nat.div_mod_eq j 10) as Hj.
  pose proof (Nat.mod_upper_bound j 10 ltac:(lia)) as Hr.
  induction reads as [|[f|] reads IH]; intros l q Hfc Hq Hst Hlen;
    cbn [readable List.length] in Hlen; try (exfalso; lia).
  destruct (plot_boxes_scored self f) as [f' Hf'].
  rewrite (loop_frame w self tfc f f' reads l Hf'). cbv zeta.
  assert (Hnext :
            (iteration l < j)%nat /\
            Np.nonneg (Np.add (as_float (fps l))
                              (Np.div (Np.of_int 1) (elapsed w (iteration l))))
            = true \/
            (j <= iteration l)%nat /\ q = Z.of_nat (j / 10) /\
            Np.add (as_float (fps l))
                   (Np.div (Np.of_int 1) (elapsed w (iteration l)))
            = Np.pinf).
  { destruct Hst as [[Hle Hacc]|(Hlt & Hq' & Hinf)].
    - destruct (Nat.eq_dec (iteration l) j) as [Heq|Hne].
      + right. split; [lia|]. split; [lia|].
        rewrite Heq, hasty, reciprocal_zero. apply add_pinf_r, Hacc.
      + left. split; [lia|].
        apply add_nonneg; [exact Hacc|apply reciprocal_nonneg, clock].
    - right. split; [lia|]. split; [exact Hq'|].
      rewrite Hinf. apply add_pinf_l, reciprocal_nonneg, clock. }
  remember (Np.add (as_float (fps l))
                   (Np.div (Np.of_int 1) (elapsed w (iteration l))))
    as fps1 eqn:Hfps1. clear Hfps1.
  destruct (fc l + 1 =? 10) eqn:E.
  - apply Z.eqb_eq in E.
    destruct (report tfc (fc l + 1) fps1 (tfcc l))
      as [y|[[[fps2 tfcc1] fc2] line]] eqn:R; [exists y; reflexivity|].
    destruct (report_returns _ _ _ _ _ _ _ _ R)
      as (ratio & pct & Havg & _ & -> & _).
    destruct Hnext as [[Hlt Hacc]|(_ & _ & Hinf)].
    + apply (IH _ (q + 1)); cbn [fc fps iteration as_float]; try lia.
      left. split; [lia|].
      apply of_int_nonneg, (to_int_nonneg _ _ (tenth_nonneg _ Hacc) Havg).
    + rewrite Hinf in Havg. discriminate Havg.
  - apply Z.eqb_neq in E.
    apply (IH _ q); cbn [fc fps iteration as_float]; try lia.
    destruct Hnext as [[Hlt Hacc]|(Hge & Hq' & Hinf)].
    + left. split; [lia|exact Hacc].
    + right. split; [lia|]. split; assumption.
Qed.

End Abort.

(** X13.  A run that raises on an opened input has written nine frames
    more than ten times the number of lines it printed: the exception
    strikes at a tenth frame, after the frame was read and before it is
    written. *)
Theorem X13_an_exception_strikes_at_a_tenth_frame :
  forall (w : World) (self : ObjectDetection) (v : Video) (x : exn),
    source w (input_file self) = Some v ->
    raised (call w self) = Some x ->
    List.length (frames_out (call w self))
    = (10 * List.length (printed (call w self)) + 9)%nat.
Proof.
  intros w self v x Hsrc H.
  destruct (loop w self (v_count v) (v_reads v) (mkLocals 0 (PyInt 0) 0 [] [] 0))
    as [[e l] rest] eqn:L.
  destruct (call_fields w self v e l rest Hsrc L) as (He & -> & -> & _).
  rewrite He in H. subst e.
  apply loop_abort in L; [|simpl; lia|reflexivity]. lia.
Qed.

(** X13 on the run that divides by a frame count of 0. *)
Lemma X13_witness :
  raised (call Scenario.uncounted (Scenario.job Scenario.uncounted))
  = Some ZeroDivisionError /\
  List.length (frames_out (call Scenario.uncounted
                                (Scenario.job Scenario.uncounted)))
  = (10 * List.length (printed (call Scenario.uncounted
                                     (Scenario.job Scenario.uncounted)))
     + 9)%nat.
Proof.
  assert (E : raised (call Scenario.uncounted (Scenario.job Scenario.uncounted))
              = Some ZeroDivisionError) by (vm_compute; reflexivity).
  split; [exact E|].
  exact (X13_an_exception_strikes_at_a_tenth_frame
           Scenario.uncounted (Scenario.job Scenario.uncounted) _ _
           eq_refl E).
Defined.

(** X14.  With no negative clock reading, an iteration [j] whose rounded
    elapsed time is 0.0 keeps the run from ending normally whenever the
    stream delivers the frames up to the end of the window of [j], that is
    [10 * (j / 10 + 1)] frames: the run raises at that report at the
    latest. *)
Theorem X14_a_zero_elapsed_time_aborts_its_window :
  forall (w : World) (self : ObjectDetection) (v : Video) (j : nat),
    source w (input_file self) = Some v ->
    (forall i, Np.nonneg (elapsed w i) = true) ->
    elapsed w j = Np.pzero ->
    (10 * (j / 10 + 1) <= List.length (readable (v_reads v)))%nat ->
    exists x, raised (call w self) = Some x.
Proof.
  intros w self v j Hsrc Hclock Hz Hlen.
  destruct (loop w self (v_count v) (v_reads v) (mkLocals 0 (PyInt 0) 0 [] [] 0))
    as [[e l] rest] eqn:L.
  destruct (call_fields w self v e l rest Hsrc L) as (-> & _).
  destruct (loop_poisoned w self (v_count v) j Hclock Hz (v_reads v)
              (mkLocals 0 (PyInt 0) 0 [] [] 0) 0) as [x Hx];
    cbn [fc fps iteration as_float]; try lia.
  - left. split; [lia|reflexivity].
  - rewrite L in Hx. exists x. exact Hx.
Qed.

(** X14 on 20 frames, the fourth iteration taking no time. *)
Lemma X14_witness :
  elapsed Scenario.hasty20 3 = Np.pzero /\
  (10 * (3 / 10 + 1) <= List.length (readable (Scenario.clip 20)))%nat /\
  exists x,
    raised (call Scenario.hasty20 (Scenario.job Scenario.hasty20)) = Some x.
Proof.
  assert (Hclock : forall i, Np.nonneg (elapsed Scenario.hasty20 i) = true).
  { intros i. cbn [elapsed Scenario.hasty20 Scenario.world].
    unfold Scenario.hasty. destruct (Nat.eqb i 3); reflexivity. }
  assert (Hlen : (10 * (3 / 10 + 1)
                  <= List.length (readable (Scenario.clip 20)))%nat)
    by (vm_compute; lia).
  split; [reflexivity|]. split; [exact Hlen|].
  exact (X14_a_zero_elapsed_time_aborts_its_window
           Scenario.hasty20 (Scenario.job Scenario.hasty20) _ 3%nat
           eq_refl Hclock eq_refl Hlen).
Defined.
